(** * The trends route and its cache: a shallow embedding

    Verification of the server side of the AI news aggregator: the
    [GET /api/trends] handler of [src/app/page.jsx] (second document of that
    file, lines 247-473) with its process wide cache, the query it sends to
    the code search service, and the relevance filter it applies to the
    answer.

    Conventions of the embedding.
    - A JavaScript string is a sequence of UTF-16 code units.  The model
      covers the code units below 256, which is what [ascii] holds; on that
      range [toLowerCase] below is the real one (A-Z and the accented
      capitals of Latin-1).
    - A JavaScript number that holds an integer is a [Z].  Time values are
      milliseconds since the epoch as [Date.now()] gives them; the limit of
      the [Date] range (8.64e15 ms, year 275760) is left out.
    - The awaited calls of the handler run to completion one after the
      other; one request is handled at a time. *)

From Stdlib Require Import ZArith List String Ascii Bool Lia Sorted DecimalString.
Import ListNotations.
Local Open Scope string_scope.
Local Open Scope Z_scope.

(** ** Strings *)

Module JsString.

(** [String.prototype.toLowerCase] on one code unit below 256. *)
Definition lower_unit (c : ascii) : ascii :=
  let n := N_of_ascii c in
  if ((65 <=? n) && (n <=? 90))%N
     || ((192 <=? n) && (n <=? 222) && negb (n =? 215))%N
  then ascii_of_N (n + 32)
  else c.

Fixpoint toLowerCase (s : string) : string :=
  match s with
  | EmptyString => EmptyString
  | String c s' => String (lower_unit c) (toLowerCase s')
  end.

(** [s.startsWith(p)] *)
Fixpoint startsWith (s p : string) {struct p} : bool :=
  match p, s with
  | EmptyString, _ => true
  | String _ _, EmptyString => false
  | String a p', String b s' => Ascii.eqb a b && startsWith s' p'
  end.

(** [s.includes(sub)] *)
Fixpoint includes (s sub : string) : bool :=
  startsWith s sub
  || match s with
     | EmptyString => false
     | String _ s' => includes s' sub
     end.

(** [s.split(sep)[0]] for a separator of one code unit: the text before
    the first occurrence of [sep], the whole string when there is none. *)
Fixpoint split_head (sep : ascii) (s : string) : string :=
  match s with
  | EmptyString => EmptyString
  | String c s' => if Ascii.eqb c sep then EmptyString
                   else String c (split_head sep s')
  end.

(** Occurrence of [sub] inside [s], as a proposition. *)
Definition occurs_in (sub s : string) : Prop :=
  exists pre post, s = pre ++ sub ++ post.

Fixpoint no_unit (sep : ascii) (s : string) : bool :=
  match s with
  | EmptyString => true
  | String c s' => negb (Ascii.eqb c sep) && no_unit sep s'
  end.

End JsString.

(** ** The regular expression of the filter

    [/(ai|artificial|...|computer.vision|data.science)/i]: an alternation of
    sequences of literal letters and of the wildcard [.], searched anywhere
    in the subject. *)

Module Regex.
Import JsString.

Inductive Atom : Type :=
| Chr (c : ascii)     (* a literal, compared without case under /i *)
| Dot.                (* any code unit but a line terminator *)

Definition Alternative := list Atom.

Definition is_line_terminator (c : ascii) : bool :=
  let n := N_of_ascii c in ((n =? 10) || (n =? 13))%N.

Definition atom_matches (a : Atom) (c : ascii) : bool :=
  match a with
  | Chr p => Ascii.eqb (lower_unit p) (lower_unit c)
  | Dot => negb (is_line_terminator c)
  end.

(** The alternative matches a prefix of the subject. *)
Fixpoint match_here (alt : Alternative) (s : string) : bool :=
  match alt, s with
  | [], _ => true
  | _ :: _, EmptyString => false
  | a :: alt', String c s' => atom_matches a c && match_here alt' s'
  end.

(** Some alternative matches at some position: the truth value of
    [s.match(re)], which is an array on a match and [null] otherwise. *)
Fixpoint search (re : list Alternative) (s : string) : bool :=
  existsb (fun alt => match_here alt s) re
  || match s with
     | EmptyString => false
     | String _ s' => search re s'
     end.

(** Reading of one alternative of the source text of the expression. *)
Fixpoint parse_alt (src : string) : Alternative :=
  match src with
  | EmptyString => []
  | String c src' =>
      (if Ascii.eqb c "."%char then Dot else Chr c) :: parse_alt src'
  end.

(** The text [m] is matched by the alternative, as a relation. *)
Inductive matched_by : Alternative -> string -> Prop :=
| matched_nil : matched_by [] EmptyString
| matched_cons a alt c m :
    atom_matches a c = true -> matched_by alt m ->
    matched_by (a :: alt) (String c m).

Definition found_in (re : list Alternative) (s : string) : Prop :=
  exists alt pre m post,
    In alt re /\ matched_by alt m /\ s = pre ++ m ++ post.

End Regex.

(** ** Repositories and the relevance filter *)

(** [GitHubRepository] of the route.  The handler guards a missing
    [topics] array and a [null] description, so both are optional. *)
Module GitHub.

Record GitHubRepository : Type := {
id : Z;
name : string;
full_name : string;
description : option string;
stargazers_count : Z;
html_url : string;
topics : option (list string);
updated_at : string;
language : option string;
created_at : string
}.

(** [GitHubSearchResponse] *)
Record GitHubSearchResponse : Type := {
total_count : Z;
incomplete_results : bool;
items : list GitHubRepository
}.

End GitHub.

Module Filter.
Import JsString Regex.

Definition aiTopics : list string :=
  ["ai"; "machine-learning"; "llm"; "artificial-intelligence";
   "deep-learning"; "neural-network"; "tensorflow"; "pytorch"; "opencv"].

Definition aiWordsSource : list string :=
  ["ai"; "artificial"; "intelligence"; "machine"; "learning"; "neural";
   "deep"; "ml"; "nlp"; "computer.vision"; "data.science"].

Definition aiWords : list Alternative := map parse_alt aiWordsSource.

(** [repo.topics || []] *)
Definition topics_or_empty (repo : GitHub.GitHubRepository) : list string :=
  match GitHub.topics repo with Some ts => ts | None => [] end.

(** [repo.description || ''] *)
Definition description_or_empty (repo : GitHub.GitHubRepository) : string :=
  match GitHub.description repo with Some d => d | None => "" end.

Definition hasAITopic (repo : GitHub.GitHubRepository) : bool :=
  existsb (fun topic =>
    existsb (fun aiTopic =>
      includes (toLowerCase topic) (toLowerCase aiTopic)) aiTopics)
    (topics_or_empty repo).

Definition subject (repo : GitHub.GitHubRepository) : string :=
  toLowerCase (GitHub.name repo ++ " " ++ description_or_empty repo).

Definition nameOrDescHasAI (repo : GitHub.GitHubRepository) : bool :=
  search aiWords (subject repo).

(** The callback of [repositories.filter]. *)
Definition keep (repo : GitHub.GitHubRepository) : bool :=
  (hasAITopic repo || nameOrDescHasAI repo) && (0 <=? GitHub.stargazers_count repo).

Definition filteredRepositories (repositories : list GitHub.GitHubRepository)
  : list GitHub.GitHubRepository :=
  filter keep repositories.

End Filter.

(** ** Dates

    The time arithmetic of ECMAScript (section "Date objects"), with the
    time zone of the host as a parameter: [getDate] and [setDate] work on
    local time, [toISOString] on UTC. *)

Module JsDate.
Import JsString.

Definition msPerDay : Z := 86400000.
Definition msPerHour : Z := 3600000.
Definition msPerMinute : Z := 60000.
Definition msPerSecond : Z := 1000.

Definition Day (t : Z) : Z := t / msPerDay.
Definition TimeWithinDay (t : Z) : Z := t mod msPerDay.

Definition DaysInYear (y : Z) : Z :=
  if negb (y mod 4 =? 0) then 365
  else if negb (y mod 100 =? 0) then 366
  else if negb (y mod 400 =? 0) then 365
  else 366.

Definition DayFromYear (y : Z) : Z :=
  365 * (y - 1970) + (y - 1969) / 4 - (y - 1901) / 100 + (y - 1601) / 400.

Definition TimeFromYear (y : Z) : Z := msPerDay * DayFromYear y.

(** The largest year whose first day is not after [t]: an estimate from
    the mean length of the year, corrected by one year either way. *)
Definition YearFromTime (t : Z) : Z :=
  let d := Day t in
  let y0 := 1970 + (400 * d) / 146097 in
  if DayFromYear (y0 + 1) <=? d then y0 + 1
  else if DayFromYear y0 <=? d then y0
  else y0 - 1.

Definition InLeapYear (t : Z) : Z :=
  if DaysInYear (YearFromTime t) =? 366 then 1 else 0.

Definition DayWithinYear (t : Z) : Z := Day t - DayFromYear (YearFromTime t).

(** Day within the year of the first day of month [m] (0 is January). *)
Definition monthStart (m leap : Z) : Z :=
  match m with
  | 0 => 0
  | 1 => 31
  | 2 => 59 + leap
  | 3 => 90 + leap
  | 4 => 120 + leap
  | 5 => 151 + leap
  | 6 => 181 + leap
  | 7 => 212 + leap
  | 8 => 243 + leap
  | 9 => 273 + leap
  | 10 => 304 + leap
  | _ => 334 + leap
  end.

Definition MonthFromTime (t : Z) : Z :=
  let d := DayWithinYear t in
  let l := InLeapYear t in
  if d <? 31 then 0
  else if d <? 59 + l then 1
  else if d <? 90 + l then 2
  else if d <? 120 + l then 3
  else if d <? 151 + l then 4
  else if d <? 181 + l then 5
  else if d <? 212 + l then 6
  else if d <? 243 + l then 7
  else if d <? 273 + l then 8
  else if d <? 304 + l then 9
  else if d <? 334 + l then 10
  else 11.

Definition DateFromTime (t : Z) : Z :=
  DayWithinYear t - monthStart (MonthFromTime t) (InLeapYear t) + 1.

Definition HourFromTime (t : Z) : Z := (t / msPerHour) mod 24.
Definition MinFromTime (t : Z) : Z := (t / msPerMinute) mod 60.
Definition SecFromTime (t : Z) : Z := (t / msPerSecond) mod 60.
Definition msFromTime (t : Z) : Z := t mod msPerSecond.

(** [MakeDay(year, month, date)] for a month in 0..11. *)
Definition MakeDay (year month date : Z) : Z :=
  let leap := if DaysInYear year =? 366 then 1 else 0 in
  DayFromYear year + monthStart month leap + date - 1.

Definition MakeDate (day time : Z) : Z := day * msPerDay + time.

(** The time zone of the process: [LocalTZA(t, isUTC)], the offset of
    local time in milliseconds, asked for a UTC time or for a local one. *)
Record TimeZone : Type := {
  offset_at_utc : Z -> Z;
  offset_at_local : Z -> Z
}.

Definition LocalTime (tz : TimeZone) (t : Z) : Z := t + offset_at_utc tz t.
Definition UTC (tz : TimeZone) (t : Z) : Z := t - offset_at_local tz t.

(** [date.getDate()] *)
Definition getDate (tz : TimeZone) (t : Z) : Z :=
  DateFromTime (LocalTime tz t).

(** [date.setDate(dt)]: the new time value of the object. *)
Definition setDate (tz : TimeZone) (t dt : Z) : Z :=
  let tl := LocalTime tz t in
  let newDate :=
    MakeDate (MakeDay (YearFromTime tl) (MonthFromTime tl) dt)
             (TimeWithinDay tl) in
  UTC tz newDate.

Definition digit (n : Z) : ascii := ascii_of_N (48 + Z.to_N (n mod 10)).

Definition pad2 (n : Z) : string :=
  String (digit (n / 10)) (String (digit n) "").
Definition pad3 (n : Z) : string := String (digit (n / 100)) (pad2 n).
Definition pad4 (n : Z) : string := String (digit (n / 1000)) (pad3 n).
Definition pad6 (n : Z) : string :=
  String (digit (n / 100000)) (String (digit (n / 10000)) (pad4 n)).

Definition isoYear (y : Z) : string :=
  if (0 <=? y) && (y <=? 9999) then pad4 y
  else String (if 0 <=? y then "+"%char else "-"%char) (pad6 (Z.abs y)).

(** The calendar date of a day number, [YYYY-MM-DD]. *)
Definition isoDate (t : Z) : string :=
  isoYear (YearFromTime t) ++ "-" ++ pad2 (MonthFromTime t + 1)
    ++ "-" ++ pad2 (DateFromTime t).

Definition isoTime (t : Z) : string :=
  pad2 (HourFromTime t) ++ ":" ++ pad2 (MinFromTime t) ++ ":"
    ++ pad2 (SecFromTime t) ++ "." ++ pad3 (msFromTime t) ++ "Z".

(** [new Date(t).toISOString()] *)
Definition toISOString (t : Z) : string :=
  isoDate t ++ "T" ++ isoTime t.

(** A zone that keeps one offset all year, UTC for offset 0. *)
Definition fixedZone (offset : Z) : TimeZone :=
  {| offset_at_utc := fun _ => offset; offset_at_local := fun _ => offset |}.

(** A zone that is [before] ms ahead of UTC until the UTC instant
    [switch] and [after] ms ahead from then on.  A local time that
    occurs twice or not at all around the switch is read with the offset
    in force before it. *)
Definition switchingZone (before after switch : Z) : TimeZone :=
  {| offset_at_utc := fun t => if t <? switch then before else after;
     offset_at_local := fun tl =>
       if tl - Z.max before after <? switch then before else after |}.

End JsDate.

(** ** [encodeURIComponent] *)

Module JsURI.

Definition hex_digit (n : N) : ascii :=
  if (n <? 10)%N then ascii_of_N (48 + n) else ascii_of_N (55 + n).

Definition percent (byte : N) : string :=
  String "%" (String (hex_digit (byte / 16))
             (String (hex_digit (byte mod 16)) "")).

(** Letters, digits and [- _ . ! ~ * ' ( )] pass unchanged. *)
Definition is_unreserved (c : ascii) : bool :=
  let n := N_of_ascii c in
  (((48 <=? n) && (n <=? 57)) || ((65 <=? n) && (n <=? 90))
   || ((97 <=? n) && (n <=? 122))
   || existsb (N.eqb n) [45; 95; 46; 33; 126; 42; 39; 40; 41])%N.

(** Every other code unit is written as the bytes of its UTF-8 form,
    one for a unit below 128 and two for a unit below 256. *)
Definition encode_unit (c : ascii) : string :=
  let n := N_of_ascii c in
  if is_unreserved c then String c ""
  else if (n <? 128)%N then percent n
  else percent (192 + n / 64) ++ percent (128 + n mod 64).

Fixpoint encodeURIComponent (s : string) : string :=
  match s with
  | EmptyString => EmptyString
  | String c s' => encode_unit c ++ encodeURIComponent s'
  end.

End JsURI.

(** ** The route [GET /api/trends] *)

Module Trends.
Import JsString JsDate JsURI Filter.

(** The module level [cache] object. *)
Record Cache : Type := {
  data : option (list GitHub.GitHubRepository);
  lastFetch : Z
}.

Definition initialCache : Cache := {| data := None; lastFetch := 0 |}.

Definition CACHE_DURATION : Z := 5 * 60 * 1000.

(** A thrown value: an [Error] with its message, or anything else. *)
Inductive Thrown : Type :=
| ErrorObject (message : string)
| OtherValue.

(** What [fetch] resolves to: the status line and the two ways the
    handler reads the body, each of which may reject. *)
Record UpstreamResponse : Type := {
  status : Z;
  statusText : string;
  text : Thrown + string;
  json : Thrown + GitHub.GitHubSearchResponse
}.

(** [response.ok] *)
Definition ok (response : UpstreamResponse) : bool :=
  (200 <=? status response) && (status response <=? 299).

Inductive FetchResult : Type :=
| Rejected (reason : Thrown)
| Resolved (response : UpstreamResponse).

(** The host of one request: the time zone of the process, the clock as
    the handler reads it ([Date.now()] on entry, [new Date()] for the
    query, [Date.now()] in the handler of errors) and the code search
    service behind [fetch]. *)
Record Host : Type := {
  zone : TimeZone;
  clock_entry : Z;
  clock_query : Z;
  clock_catch : Z;
  fetch : string -> FetchResult
}.

(** [request.url]: a text [new URL] rejects, or the decoded pairs of the
    query string of a URL it accepts. *)
Inductive RequestURL : Type :=
| Unparsable
| Parsed (searchParams : list (string * string)).

Record Request : Type := { url : RequestURL }.

(** [url.searchParams.has(key)] *)
Definition searchParams_has (params : list (string * string)) (key : string)
  : bool :=
  existsb (fun p => String.eqb (fst p) key) params.

(** The JSON body of an answer; a key left out is [None]. *)
Record Body : Type := {
  repositories : list GitHub.GitHubRepository;
  cached_at : option string;
  total_count : Z;
  warning : option string;
  cache_age_seconds : option Z;
  error : option string
}.

Record HttpResponse : Type := {
  http_status : Z;
  headers : list (string * string);
  body : Body
}.

(** [NextResponse.json(body, init)]: status 200 unless [init] says
    otherwise. *)
Definition NextResponse_json (b : Body) (init_status : option Z)
    (init_headers : list (string * string)) : HttpResponse :=
  {| http_status := match init_status with Some s => s | None => 200 end;
     headers := init_headers;
     body := b |}.

Definition directive : string :=
  "public, s-maxage=300, stale-while-revalidate=600".

Definition cacheControl : list (string * string) :=
  [("Cache-Control", directive)].

(** [Math.round(ms / 1000)]: to the nearest integer, halves upwards. *)
Definition round_seconds (ms : Z) : Z := (ms + 500) / 1000.

(** [String(n)] for an integer. *)
Definition number_to_string (n : Z) : string :=
  NilZero.string_of_int (Z.to_int n).

(** The state a request runs in: the cache, and the calls made to the
    search service so far (the URLs, oldest first). *)
Record World : Type := {
  cache : Cache;
  upstream_calls : list string
}.

(** Computations of the [try] block: they may throw, and what they did
    to the world before throwing stays done. *)
Definition M (A : Type) : Type := World -> (Thrown + A) * World.

Definition ret {A} (a : A) : M A := fun w => (inr a, w).

Definition throw {A} (e : Thrown) : M A := fun w => (inl e, w).

Definition bind {A B} (m : M A) (k : A -> M B) : M B :=
  fun w => match m w with
           | (inl e, w') => (inl e, w')
           | (inr a, w') => k a w'
           end.

Definition get_cache : M Cache := fun w => (inr (cache w), w).

Definition set_data (d : list GitHub.GitHubRepository) : M unit :=
  fun w => (inr tt,
            {| cache := {| data := Some d; lastFetch := lastFetch (cache w) |};
               upstream_calls := upstream_calls w |}).

Definition set_lastFetch (t : Z) : M unit :=
  fun w => (inr tt,
            {| cache := {| data := data (cache w); lastFetch := t |};
               upstream_calls := upstream_calls w |}).

(** [await fetch(url, ...)] *)
Definition await_fetch (h : Host) (u : string) : M UpstreamResponse :=
  fun w =>
    let w' := {| cache := cache w;
                 upstream_calls := upstream_calls w ++ [u] |} in
    match fetch h u with
    | Rejected e => (inl e, w')
    | Resolved r => (inr r, w')
    end.

(** [await] of a body promise. *)
Definition await {A} (p : Thrown + A) : M A :=
  match p with inl e => throw e | inr a => ret a end.

(** [try { body } catch (error) { handler }] where the handler cannot
    throw. *)
Definition try_catch {A} (body : M A) (handler : Thrown -> World -> A * World)
  : World -> A * World :=
  fun w => match body w with
           | (inr a, w') => (a, w')
           | (inl e, w') => handler e w'
           end.

Notation "x <- m ;; k" := (bind m (fun x => k))
  (at level 61, m at next level, right associativity).

(** Lines 291-299: the bypass marker of the request. *)
Definition forceRefresh_of (request : Request) : bool :=
  match url request with
  | Unparsable => false
  | Parsed params => searchParams_has params "t"
  end.

(** Lines 322-340: the cutoff of the query and the URL of the search,
    for the time the [Date] object is created at. *)
Definition cutoff (tz : TimeZone) (t : Z) : Z :=
  setDate tz t (getDate tz t - 7).

Definition dateString (tz : TimeZone) (t : Z) : string :=
  split_head "T" (toISOString (cutoff tz t)).

Definition query (tz : TimeZone) (t : Z) : string :=
  "topic:ai created:>" ++ dateString tz t.

Definition searchURL (tz : TimeZone) (t : Z) : string :=
  "https://api.github.com/search/repositories?q="
    ++ encodeURIComponent (query tz t)
    ++ "&sort=stars&order=desc&per_page=30".

(** The body the three answers from the cache share. *)
Definition cachedBody (c : Cache) (d : list GitHub.GitHubRepository)
    (cacheAge : Z) (warn : option string) : Body :=
  {| repositories := d;
     cached_at := Some (toISOString (lastFetch c));
     total_count := Z.of_nat (List.length d);
     warning := warn;
     cache_age_seconds := Some (round_seconds cacheAge);
     error := None |}.

Definition freshBody (filtered : list GitHub.GitHubRepository) (now : Z)
  : Body :=
  {| repositories := filtered;
     cached_at := Some (toISOString now);
     total_count := Z.of_nat (List.length filtered);
     warning := None;
     cache_age_seconds := Some 0;
     error := None |}.

Definition errorBody (message : string) : Body :=
  {| repositories := [];
     cached_at := None;
     total_count := 0;
     warning := None;
     cache_age_seconds := None;
     error := Some message |}.

(** Lines 320-421: the refresh, from the query to the answer. *)
Definition refresh (h : Host) (now cacheAge : Z) : M HttpResponse :=
  let u := searchURL (zone h) (clock_query h) in
  response <- await_fetch h u ;;
  if negb (ok response) then
    errorText <- await (text response) ;;
    c <- get_cache ;;
    match data c with
    | Some d =>
        ret (NextResponse_json
               (cachedBody c d cacheAge
                  (Some "Using stale cached data due to GitHub API error"))
               None [])
    | None =>
        if status response =? 403 then
          throw (ErrorObject
                   "GitHub API rate limit exceeded. Please try again later.")
        else
          throw (ErrorObject
                   ("GitHub API error: " ++ number_to_string (status response)))
    end
  else
    d <- await (json response) ;;
    let repositories := GitHub.items d in
    let filtered := filteredRepositories repositories in
    _ <- set_data filtered ;;
    _ <- set_lastFetch now ;;
    ret (NextResponse_json (freshBody filtered now) None cacheControl).

(** Lines 290-421: the [try] block. *)
Definition attempt (h : Host) (request : Request) : M HttpResponse :=
  let forceRefresh := forceRefresh_of request in
  let now := clock_entry h in
  c <- get_cache ;;
  let cacheAge := now - lastFetch c in
  match data c with
  | Some d =>
      if negb forceRefresh && (cacheAge <? CACHE_DURATION) then
        ret (NextResponse_json (cachedBody c d cacheAge None) None
               cacheControl)
      else refresh h now cacheAge
  | None => refresh h now cacheAge
  end.

(** Lines 423-448: the [catch] block. *)
Definition recover (h : Host) (thrown : Thrown) (w : World)
  : HttpResponse * World :=
  let c := cache w in
  match data c with
  | Some d =>
      let cacheAge := clock_catch h - lastFetch c in
      (NextResponse_json
         (cachedBody c d cacheAge
            (Some "Using stale cached data due to API error"))
         None [], w)
  | None =>
      (NextResponse_json
         (errorBody match thrown with
                    | ErrorObject message => message
                    | OtherValue => "Failed to fetch repositories"
                    end)
         (Some 500) [], w)
  end.

Definition GET (h : Host) (request : Request) (w : World)
  : HttpResponse * World :=
  try_catch (attempt h request) (recover h) w.

(** The request the page sends (lines 58-62): a refresh appends the
    marker [t] with the clock of the browser as its value. *)
Definition pageRequest (isRefresh : bool) (browserNow : Z) : Request :=
  {| url := Parsed (if isRefresh
                    then [("t", number_to_string browserNow)]
                    else []) |}.

(** Reading of the answers. *)
Definition header (r : HttpResponse) (key : string) : option string :=
  match find (fun p => String.eqb (fst p) key) (headers r) with
  | Some p => Some (snd p)
  | None => None
  end.

(** The answer is marked as stale by its warning and by nothing else. *)
Definition isStale (r : HttpResponse) : bool :=
  match warning (body r) with Some _ => true | None => false end.

(** The search did not deliver: [fetch] rejected, the status is not a
    2xx one, or the body of a 2xx answer could not be read as JSON. *)
Definition upstream_failed (r : FetchResult) : bool :=
  match r with
  | Rejected _ => true
  | Resolved response =>
      negb (ok response)
      || match json response with inl _ => true | inr _ => false end
  end.

Definition populated (c : Cache) : bool :=
  match data c with Some _ => true | None => false end.

Definition response_of (h : Host) (request : Request) (w : World)
  : HttpResponse := fst (GET h request w).

Definition world_after (h : Host) (request : Request) (w : World)
  : World := snd (GET h request w).

(** The world once the search has been called. *)
Definition called (h : Host) (w : World) : World :=
  {| cache := cache w;
     upstream_calls :=
       upstream_calls w ++ [searchURL (zone h) (clock_query h)] |}.

(** A refresh is due: the marker is there, or the cache is empty or old. *)
Definition refresh_due (h : Host) (request : Request) (w : World) : bool :=
  forceRefresh_of request
  || negb (populated (cache w))
  || (CACHE_DURATION <=? clock_entry h - lastFetch (cache w)).

(** The message of the error answer, from what the search did. *)
Definition failure_message (r : FetchResult) : string :=
  let of_thrown e :=
    match e with
    | ErrorObject m => m
    | OtherValue => "Failed to fetch repositories"
    end in
  match r with
  | Rejected e => of_thrown e
  | Resolved response =>
      if ok response then
        match json response with inl e => of_thrown e | inr _ => "" end
      else
        match text response with
        | inl e => of_thrown e
        | inr _ =>
            if status response =? 403
            then "GitHub API rate limit exceeded. Please try again later."
            else "GitHub API error: " ++ number_to_string (status response)
        end
  end.

End Trends.

(** ** The summarize route and its caller *)

Module Summarize.

(** The body the page posts to [/api/summarize]; a key may be absent. *)
Record SummarizeRequest : Type := {
  text : option string;
  apiKey : option string;
  provider : option string
}.

(** [localStorage] of the browser, the two keys the page reads. *)
Record LocalStorage : Type := {
  ai_api_key : option string;
  ai_provider : option string
}.

Inductive PageStep : Type :=
| AskForKey                         (* alert, open the settings, return *)
| Post (request : SummarizeRequest). (* fetch('/api/summarize', ...) *)

(** [handleSummarize] of the page (lines 93-134), up to the request. *)
Definition handleSummarize (storage : LocalStorage)
    (repository : GitHub.GitHubRepository) : PageStep :=
  let provider :=
    match ai_provider storage with
    | Some p => if String.eqb p "" then "openai" else p
    | None => "openai"
    end in
  match ai_api_key storage with
  | None => AskForKey
  | Some key =>
      if String.eqb key "" then AskForKey
      else Post {| text := Some (GitHub.name repository ++ ": "
                        ++ match GitHub.description repository with
                           | Some d => if String.eqb d "" then "No description" else d
                           | None => "No description"
                           end);
                   apiKey := Some key;
                   provider := Some provider |}
  end.

Inductive Provider : Type := OpenAI | Groq.

Inductive SummarizeError : Type :=
| ValidationError (message : string)
| ProviderError (status : Z) (message : string).

(** What a provider answers: a status and the prose or the message. *)
Record ProviderReply : Type := {
  reply_status : Z;
  reply_text : string
}.

(** One call over the network: the provider it goes to and the text and
    credential it carries. *)
Record ProviderCall : Type := {
  call_provider : Provider;
  call_text : string;
  call_credential : string
}.

(** Modelled from the spec: the selector of the provider, whose closed
    set the route file (absent from the sources) defines; the spec names
    the two values. *)
Definition parseProvider (selector : string) : option Provider :=
  if String.eqb selector "openai" then Some OpenAI
  else if String.eqb selector "groq" then Some Groq
  else None.

Definition present (field : option string) : option string :=
  match field with
  | Some s => if String.eqb s "" then None else Some s
  | None => None
  end.

(** Modelled from the spec: the operation [summarize] of the
    SummarizeRouter (the route file [app/api/summarize/route] is absent
    from the sources).  It validates the three fields, then makes one call
    to the provider the selector is bound to, and turns a non-2xx answer
    into a [ProviderError].  The second component lists the calls made. *)
Definition summarize (network : ProviderCall -> ProviderReply)
    (request : SummarizeRequest)
  : (SummarizeError + (string * Provider)) * list ProviderCall :=
  match present (text request), present (apiKey request),
        present (provider request) with
  | Some t, Some key, Some selector =>
      match parseProvider selector with
      | Some p =>
          let call := {| call_provider := p; call_text := t;
                         call_credential := key |} in
          let reply := network call in
          if (200 <=? reply_status reply) && (reply_status reply <=? 299)
          then (inr (reply_text reply, p), [call])
          else (inl (ProviderError (reply_status reply) (reply_text reply)),
                [call])
      | None => (inl (ValidationError "unsupported provider"), [])
      end
  | _, _, _ => (inl (ValidationError "missing required field"), [])
  end.

(** The selector is there and names a provider of the closed set. *)
Definition supported (selector : option string) : bool :=
  match selector with
  | Some s => match parseProvider s with Some _ => true | None => false end
  | None => false
  end.

Definition is_validation_error (r : SummarizeError + (string * Provider))
  : bool :=
  match r with inl (ValidationError _) => true | _ => false end.

End Summarize.

(** ** Vocabulary of the statements about the filter *)

Module FilterSpec.
Import JsString Regex Filter.

(** The topic set holds [term], whatever the letter case. *)
Definition topic_is (repo : GitHub.GitHubRepository) (term : string) : Prop :=
  exists topic, In topic (topics_or_empty repo)
                /\ toLowerCase topic = toLowerCase term.

(** The description is there and [word] occurs in it, whatever the
    letter case. *)
Definition description_mentions (repo : GitHub.GitHubRepository)
    (word : string) : Prop :=
  exists d, GitHub.description repo = Some d
            /\ occurs_in (toLowerCase word) (toLowerCase d).

(** Some topic has a term of the vocabulary somewhere inside it. *)
Definition topic_contains_term (repo : GitHub.GitHubRepository) : Prop :=
  exists topic term,
    In topic (topics_or_empty repo) /\ In term aiTopics
    /\ occurs_in (toLowerCase term) (toLowerCase topic).

(** The pattern of words matches somewhere in the lower-cased text made of
    the name, a space and the description. *)
Definition text_matches (repo : GitHub.GitHubRepository) : Prop :=
  found_in aiWords (subject repo).

(** The same repository with another star count. *)
Definition with_stars (repo : GitHub.GitHubRepository) (n : Z)
  : GitHub.GitHubRepository :=
  {| GitHub.id := GitHub.id repo; GitHub.name := GitHub.name repo;
     GitHub.full_name := GitHub.full_name repo;
     GitHub.description := GitHub.description repo;
     GitHub.stargazers_count := n;
     GitHub.html_url := GitHub.html_url repo;
     GitHub.topics := GitHub.topics repo;
     GitHub.updated_at := GitHub.updated_at repo;
     GitHub.language := GitHub.language repo;
     GitHub.created_at := GitHub.created_at repo |}.

(** The reading of the specification, word for word: a topic that is a
    term of the vocabulary, letter case apart ... *)
Definition spec_has_vocabulary_topic (repo : GitHub.GitHubRepository)
  : bool :=
  existsb (fun topic => existsb (String.eqb (toLowerCase topic)) aiTopics)
    (topics_or_empty repo).

(** ... and one of the listed words inside the name or inside the
    description, letter case apart. *)
Definition spec_words : list string :=
  ["ai"; "artificial"; "intelligence"; "machine"; "learning"; "neural";
   "deep"; "ml"; "nlp"; "computer vision"; "data science"].

Definition spec_has_adjacent_word (repo : GitHub.GitHubRepository) : bool :=
  existsb (fun word =>
             includes (toLowerCase (GitHub.name repo)) word
             || includes (toLowerCase (description_or_empty repo)) word)
    spec_words.

(** One list is the other with some elements left out, order kept. *)
Inductive subsequence {A : Type} : list A -> list A -> Prop :=
| subsequence_nil : subsequence [] []
| subsequence_skip x l1 l2 :
    subsequence l1 l2 -> subsequence l1 (x :: l2)
| subsequence_keep x l1 l2 :
    subsequence l1 l2 -> subsequence (x :: l1) (x :: l2).

(** Sorted by star count, largest first, as the search returns them. *)
Definition stars_descending (l : list GitHub.GitHubRepository) : Prop :=
  StronglySorted
    (fun a b => GitHub.stargazers_count b <= GitHub.stargazers_count a) l.

End FilterSpec.

(** ** Sample data *)

Module Sample.
Import JsDate Trends.

Definition repo (n : string) (ts : list string) (d : option string)
    (stars : Z) : GitHub.GitHubRepository :=
  {| GitHub.id := 1; GitHub.name := n; GitHub.full_name := "acme/" ++ n;
     GitHub.description := d; GitHub.stargazers_count := stars;
     GitHub.html_url := "https://github.com/acme/" ++ n;
     GitHub.topics := Some ts; GitHub.updated_at := "2026-10-27T10:00:00Z";
     GitHub.language := None; GitHub.created_at := "2026-10-26T10:00:00Z" |}.

Definition agentKit := repo "agent-kit" ["ai"] (Some "Agents") 50.
Definition tinyLlm := repo "tiny-llm" ["llm"] None 10.
Definition ledger := repo "ledger" ["blockchain"] None 1000.
Definition zlib := repo "zzz" ["compression"] (Some "fast codec") 1000.
Definition toolkit := repo "toolkit" ["Machine-Learning"] None 0.

(** 2026-10-28T00:30:00.000Z *)
Definition t0 : Z := 1793147400000.

Definition emptyWorld : World :=
  {| cache := initialCache; upstream_calls := [] |}.

(** The cache as a refresh at [t0] leaves it. *)
Definition populatedWorld : World :=
  {| cache := {| data := Some [agentKit; tinyLlm]; lastFetch := t0 |};
     upstream_calls := [] |}.

Definition answers (found : list GitHub.GitHubRepository) (_ : string)
  : FetchResult :=
  Resolved {| status := 200; statusText := "OK"; text := inr "{}";
              json := inr {| GitHub.total_count := Z.of_nat (List.length found);
                             GitHub.incomplete_results := false;
                             GitHub.items := found |} |}.

Definition unavailable (_ : string) : FetchResult :=
  Resolved {| status := 503; statusText := "Service Unavailable";
              text := inr "upstream down";
              json := inl (ErrorObject "Unexpected token u in JSON") |}.

Definition offline (_ : string) : FetchResult :=
  Rejected (ErrorObject "fetch failed").

Definition host (tz : TimeZone) (now : Z) (net : string -> FetchResult)
  : Host :=
  {| zone := tz; clock_entry := now; clock_query := now;
     clock_catch := now + 2; fetch := net |}.

Definition plain : Request := {| url := Parsed [] |}.

(** A zone three hours ahead of UTC that falls back to two hours ahead
    at 2026-10-24T23:00:00Z, as Asia/Jerusalem does that year. *)
Definition jerusalem : TimeZone :=
  switchingZone 10800000 7200000 1792882800000.

End Sample.

(** ** The diagnostic route [OPTIONS /api/trends] and runs of requests *)

Module Diagnostics.
Import JsDate Trends.

(** The [cache_status] object of the answer; [is_valid] is [null] when the
    slot is empty, for [cache.data && ...] is then [cache.data] itself. *)
Record CacheStatus : Type := {
  has_data : bool;
  last_fetch : option string;
  age_seconds : Z;
  is_valid : option bool
}.

Record Info : Type := {
  message : string;
  cache_duration_minutes : Z;
  cache_status : CacheStatus;
  endpoints : list (string * string)
}.

(** [OPTIONS] (lines 456-473), for the clock it reads.  It has no access
    to [fetch] and assigns nothing. *)
Definition OPTIONS (now : Z) (c : Cache) : Info :=
  let cacheAge := if lastFetch c =? 0 then 0 else now - lastFetch c in
  {| message := "GitHub Trends API with In-Memory Caching";
     cache_duration_minutes := CACHE_DURATION / (60 * 1000);
     cache_status :=
       {| has_data := populated c;
          last_fetch := if lastFetch c =? 0 then None
                        else Some (toISOString (lastFetch c));
          age_seconds := if lastFetch c =? 0 then 0
                         else round_seconds cacheAge;
          is_valid := match data c with
                      | Some _ => Some (cacheAge <? CACHE_DURATION)
                      | None => None
                      end |};
     endpoints :=
       [("GET /api/trends", "Returns trending AI/ML repositories");
        ("GET /api/trends?t=timestamp", "Forces cache refresh")] |}.

(** The process from its start. *)
Definition initialWorld : World :=
  {| cache := initialCache; upstream_calls := [] |}.

(** Requests handled one after the other, each on its own host state
    (clock, zone, what the search service does at that moment): the world
    at the end, and the answers in order. *)
Fixpoint serve (requests : list (Host * Request)) (w : World) : World :=
  match requests with
  | [] => w
  | (h, request) :: rest => serve rest (snd (GET h request w))
  end.

Fixpoint answers (requests : list (Host * Request)) (w : World)
  : list HttpResponse :=
  match requests with
  | [] => []
  | (h, request) :: rest =>
      fst (GET h request w) :: answers rest (snd (GET h request w))
  end.

(** Every repository of the list passes the filter of the route. *)
Definition all_relevant (l : list GitHub.GitHubRepository) : Prop :=
  Forall (fun repo => Filter.keep repo = true) l.

Definition cache_relevant (c : Cache) : Prop :=
  match data c with Some d => all_relevant d | None => True end.



(** It fails whenever it is asked during the run. *)
Definition search_down (requests : list (Host * Request)) : Prop :=
  Forall (fun hr =>
            upstream_failed
              (fetch (fst hr) (searchURL (zone (fst hr)) (clock_query (fst hr))))
            = true) requests.


End Diagnostics.

(** ** The page: loading the list

    [Home] of [src/app/page.jsx] (lines 24-247): its state, the two halves
    of [fetchTrendingRepositories] around the awaited call, and what it
    renders. *)

Module Home.

Record State : Type := {
  repositories : list GitHub.GitHubRepository;
  loading : bool;
  refreshing : bool;
  error : option string;
  showAIConfig : bool;
  summarizingRepo : option string
}.

(** The values of the [useState] calls. *)
Definition initialState : State :=
  {| repositories := []; loading := true; refreshing := false;
     error := None; showAIConfig := false; summarizingRepo := None |}.

(** What [fetch(url)] gives the page: it rejects, or it resolves to an
    answer whose body is read with [json()]; [None] stands for a body
    without the key [repositories]. *)
Record ApiResponse : Type := {
  ok : bool;
  status : Z;
  json : Trends.Thrown + option (list GitHub.GitHubRepository)
}.

Inductive ApiResult : Type :=
| Unreachable (reason : Trends.Thrown)
| Answered (response : ApiResponse).

(** Lines 50-56: before the call. *)
Definition begin_fetch (isRefresh : bool) (s : State) : State :=
  {| repositories := repositories s;
     loading := if isRefresh then loading s else true;
     refreshing := if isRefresh then true else refreshing s;
     error := None;
     showAIConfig := showAIConfig s;
     summarizingRepo := summarizingRepo s |}.

(** Line 73: [err instanceof Error ? err.message : ...] *)
Definition catch_message (thrown : Trends.Thrown) : string :=
  match thrown with
  | Trends.ErrorObject m => m
  | Trends.OtherValue => "Failed to load repositories"
  end.

Definition fail_with (m : string) (s : State) : State :=
  {| repositories := repositories s; loading := false; refreshing := false;
     error := Some m; showAIConfig := showAIConfig s;
     summarizingRepo := summarizingRepo s |}.

(** Lines 64-78: after the call, with [catch] and [finally]. *)
Definition settle (result : ApiResult) (s : State) : State :=
  match result with
  | Unreachable e => fail_with (catch_message e) s
  | Answered r =>
      if negb (ok r) then
        fail_with ("Failed to fetch repositories: "
                   ++ Trends.number_to_string (status r)) s
      else
        match json r with
        | inl e => fail_with (catch_message e) s
        | inr d =>
            {| repositories := match d with Some l => l | None => [] end;
               loading := false; refreshing := false;
               error := error s; showAIConfig := showAIConfig s;
               summarizingRepo := summarizingRepo s |}
        end
  end.

(** [fetchTrendingRepositories(isRefresh)] run to its end against a
    network; [handleRefresh] is the call with [true]. *)
Definition fetchTrendingRepositories (isRefresh : bool) (browserNow : Z)
    (network : Trends.Request -> ApiResult) (s : State) : State :=
  settle (network (Trends.pageRequest isRefresh browserNow))
         (begin_fetch isRefresh s).

Definition handleRefresh := fetchTrendingRepositories true.

(** The answer of the route as the page's [fetch] sees it. *)
Definition over_http (r : Trends.HttpResponse) : ApiResult :=
  Answered
    {| ok := (200 <=? Trends.http_status r) && (Trends.http_status r <=? 299);
       status := Trends.http_status r;
       json := inr (Some (Trends.repositories (Trends.body r))) |}.

(** The parts of the main content (lines 222-238). *)
Inductive View : Type :=
| Skeleton
| ErrorPanel (message : string)
| EmptyState
| Grid (cards : list (GitHub.GitHubRepository * bool)).

(** A string in a condition: [null] and the empty string are false. *)
Definition truthy (v : option string) : bool :=
  match v with
  | Some m => negb (String.eqb m "")
  | None => false
  end.

Definition isLoadingCard (s : State) (repo : GitHub.GitHubRepository) : bool :=
  match summarizingRepo s with
  | Some i => String.eqb i (Trends.number_to_string (GitHub.id repo))
  | None => false
  end.

Definition render (s : State) : list View :=
  ((if loading s then [Skeleton] else [])
   ++ (if truthy (error s) && negb (loading s)
       then [ErrorPanel match error s with Some m => m | None => "" end]
       else [])
   ++ (if negb (loading s) && negb (truthy (error s))
          && (List.length (repositories s) =? 0)%nat
       then [EmptyState] else [])
   ++ (if negb (loading s) && negb (truthy (error s))
          && (0 <? List.length (repositories s))%nat
       then [Grid (map (fun repo => (repo, isLoadingCard s repo))
                     (repositories s))]
       else []))%list.

End Home.

(** ** The browser: [localStorage] and [trim] *)

Module Browser.

Definition Storage : Type := string -> option string.

Definition emptyStorage : Storage := fun _ => None.

Definition getItem (st : Storage) (key : string) : option string := st key.

Definition setItem (st : Storage) (key value : string) : Storage :=
  fun k => if String.eqb k key then Some value else st k.

(** The two keys the page reads in [handleSummarize]. *)
Definition pageStorage (st : Storage) : Summarize.LocalStorage :=
  {| Summarize.ai_api_key := getItem st "ai_api_key";
     Summarize.ai_provider := getItem st "ai_provider" |}.

(** White space and line terminators among the code units below 256. *)
Definition is_space (c : ascii) : bool :=
  existsb (N.eqb (N_of_ascii c)) [9; 10; 11; 12; 13; 32; 160]%N.

Fixpoint trimStart (s : string) : string :=
  match s with
  | EmptyString => EmptyString
  | String c s' => if is_space c then trimStart s' else s
  end.

Fixpoint trimEnd (s : string) : string :=
  match s with
  | EmptyString => EmptyString
  | String c s' =>
      match trimEnd s' with
      | EmptyString => if is_space c then EmptyString else String c EmptyString
      | r => String c r
      end
  end.

(** [String.prototype.trim] *)
Definition trim (s : string) : string := trimEnd (trimStart s).

(** [v || d] for a string that may be [null]. *)
Definition or_else (v : option string) (d : string) : string :=
  match v with
  | Some s => if String.eqb s "" then d else s
  | None => d
  end.

End Browser.

(** ** [AIConfigModal] ([src/components/AIConfigModal.jsx]) *)

Module AIConfig.
Import Browser.

Record State : Type := {
  provider : string;
  apiKey : string;
  showKey : bool;
  isSaving : bool
}.

Definition initialState : State :=
  {| provider := "openai"; apiKey := ""; showKey := false;
     isSaving := false |}.

(** The effect that runs when the modal opens (lines 25-32). *)
Definition onOpen (st : Storage) (m : State) : State :=
  {| provider := or_else (getItem st "ai_provider") "openai";
     apiKey := or_else (getItem st "ai_api_key") "";
     showKey := showKey m;
     isSaving := isSaving m |}.

Inductive Outcome : Type :=
| AskedForKey     (* alert('Please enter an API key'), nothing else *)
| Closed          (* both items written, onClose() *)
| Failed.         (* setItem threw: alert('Failed to save configuration') *)

(** [handleSave] (lines 37-60).  [accepts key value] tells whether
    [localStorage.setItem(key, value)] goes through or throws. *)
Definition handleSave (accepts : string -> string -> bool) (m : State)
    (st : Storage) : Outcome * Storage :=
  if String.eqb (trim (apiKey m)) "" then (AskedForKey, st)
  else if accepts "ai_provider" (provider m) then
    let st1 := setItem st "ai_provider" (provider m) in
    if accepts "ai_api_key" (trim (apiKey m)) then
      (Closed, setItem st1 "ai_api_key" (trim (apiKey m)))
    else (Failed, st1)
  else (Failed, st).

(** [handleClose] (lines 65-69): whether [onClose] is called. *)
Definition handleClose (m : State) : bool := negb (isSaving m).

End AIConfig.

(** ** [SettingsModal] (second document of [src/README.md]) *)

Module Settings.
Import Browser.

(** The texts of [showMessage]. *)
Inductive Notice : Type :=
| EnterKey        (* 'Please enter an API key', error *)
| PrefixExpected  (* the OpenAI prefix message, error *)
| SavedNotice     (* 'Settings saved successfully!', success *)
| SaveError.      (* 'Error saving settings. Please try again.', error *)

Record State : Type := {
  apiKey : string;
  provider : string;
  notice : option Notice
}.

Definition initialState : State :=
  {| apiKey := ""; provider := "openai"; notice := None |}.

(** [loadSettings] (lines 98-114 of [src/README.md]). *)
Definition loadSettings (st : Storage) (m : State) : State :=
  {| apiKey := match getItem st "ai-news-api-key" with
               | Some k => if String.eqb k "" then apiKey m else k
               | None => apiKey m
               end;
     provider := match getItem st "ai-news-provider" with
                 | Some p => if existsb (String.eqb p) ["openai"; "groq"]
                             then p else provider m
                 | None => provider m
                 end;
     notice := notice m |}.

(** What [handleSave] leaves: the notice shown, the storage, the
    arguments given to [onSave], and whether the modal is set to close. *)
Record Saved : Type := {
  shown : Notice;
  storage : Storage;
  reported : option (string * string);
  closes : bool
}.

(** [handleSave] (lines 118-155 of [src/README.md]), with [accepts] as
    for the other modal. *)
Definition handleSave (accepts : string -> string -> bool) (m : State)
    (st : Storage) : Saved :=
  if String.eqb (trim (apiKey m)) "" then
    {| shown := EnterKey; storage := st; reported := None; closes := false |}
  else if String.eqb (provider m) "openai"
          && negb (JsString.startsWith (apiKey m) "sk-") then
    {| shown := PrefixExpected; storage := st; reported := None;
       closes := false |}
  else if accepts "ai-news-api-key" (trim (apiKey m)) then
    let st1 := setItem st "ai-news-api-key" (trim (apiKey m)) in
    if accepts "ai-news-provider" (provider m) then
      {| shown := SavedNotice;
         storage := setItem st1 "ai-news-provider" (provider m);
         reported := Some (trim (apiKey m), provider m);
         closes := true |}
    else {| shown := SaveError; storage := st1; reported := None;
            closes := false |}
  else {| shown := SaveError; storage := st; reported := None;
          closes := false |}.

End Settings.

(** ** [NewsCard] (third document of
    [src/components/__tests__/NewsCard.test.jsx], lines 533-735) *)

Module NewsCard.

(** [['ai', 'machine-learning'].includes(topic.toLowerCase())] *)
Definition isCoreTopic (topic : string) : bool :=
  existsb (String.eqb (JsString.toLowerCase topic)) ["ai"; "machine-learning"].

Definition extraTopics (ts : list string) : list string :=
  filter (fun topic => negb (isCoreTopic topic)) ts.

(** The items of the list of topics: the two fixed ones, a topic of the
    repository, and the item that counts the rest, with the number it
    shows and the number its label speaks. *)
Inductive Tag : Type :=
| Fixed (label : string)
| Topic (topic : string)
| More (shownCount spokenCount : Z).

Definition tags (repo : GitHub.GitHubRepository) : list Tag :=
  ([Fixed "AI"; Fixed "Machine Learning"]
   ++ match GitHub.topics repo with
      | Some ts =>
          if (0 <? List.length ts)%nat then
            map Topic (firstn 3 (extraTopics ts))
            ++ (if (3 <? List.length (extraTopics ts))%nat
                then [More (Z.of_nat (List.length (extraTopics ts)) - 3)
                           (Z.of_nat (List.length ts) - 5)]
                else [])
          else []
      | None => []
      end)%list.

Definition topicsShown (repo : GitHub.GitHubRepository) : list string :=
  flat_map (fun t => match t with Topic x => [x] | _ => [] end) (tags repo).

Definition countShown (repo : GitHub.GitHubRepository) : Z :=
  fold_right (fun t acc => match t with More n _ => n | _ => acc end) 0
    (tags repo).


(** The double nearest to [p / q], ties to the even one, as a pair
    [(m, k)] that stands for [m / 2^k]; for [1 <= p / q < 2^53]. *)
Definition nearest_double (p q : Z) : Z * Z :=
  let k := 52 - Z.log2 (p / q) in
  let scaled := p * 2 ^ k in
  let f := scaled / q in
  let r := scaled mod q in
  let m := if 2 * r <? q then f
           else if q <? 2 * r then f + 1
           else if Z.even f then f else f + 1 in
  (m, k).

(** [x.toFixed(1)] for the double [m / 2^k], at least 1: the integer
    number of tenths nearest to it, the larger one of two, written with a
    point before its last digit. *)
Definition toFixed1 (x : Z * Z) : string :=
  let (m, k) := x in
  let n := (20 * m + 2 ^ k) / 2 ^ (k + 1) in
  Trends.number_to_string (n / 10) ++ "." ++ Trends.number_to_string (n mod 10).

(** [formatStarCount] (lines 572-577 of the test file), for a count that
    is an integer below 2^53. *)
Definition formatStarCount (count : Z) : string :=
  if 1000 <=? count then toFixed1 (nearest_double count 1000) ++ "k"
  else Trends.number_to_string count.

(** [handleSummarizeClick]: the repository given to [onSummarize], if
    any. *)
Definition handleSummarizeClick (isLoading : bool)
    (repo : GitHub.GitHubRepository) : option GitHub.GitHubRepository :=
  if negb isLoading then Some repo else None.

End NewsCard.

(** * Properties *)

Import JsString JsDate JsURI Regex Filter FilterSpec Trends.

Arguments searchURL : simpl never.
Arguments toISOString : simpl never.
Arguments filteredRepositories : simpl never.
Arguments round_seconds : simpl never.
Arguments number_to_string : simpl never.
Arguments CACHE_DURATION : simpl never.

(** ** The handler, path by path *)

Ltac run_handler :=
  unfold GET, try_catch, attempt, refresh, recover, bind, get_cache,
    await_fetch, await, throw, ret, set_data, set_lastFetch, called;
  cbn [fst snd cache upstream_calls data lastFetch].

Lemma GET_fresh h request w d :
  data (cache w) = Some d ->
  forceRefresh_of request = false ->
  clock_entry h - lastFetch (cache w) < CACHE_DURATION ->
  GET h request w =
    (NextResponse_json
       (cachedBody (cache w) d (clock_entry h - lastFetch (cache w)) None)
       None cacheControl, w).
Proof.
  intros Hd Hf Hage. run_handler. rewrite Hd, Hf.
  apply Z.ltb_lt in Hage. rewrite Hage. reflexivity.
Qed.

Lemma refresh_due_false h request w :
  refresh_due h request w = false ->
  exists d, data (cache w) = Some d
            /\ forceRefresh_of request = false
            /\ clock_entry h - lastFetch (cache w) < CACHE_DURATION.
Proof.
  unfold refresh_due, populated. intros H.
  apply orb_false_elim in H as [H Hage].
  apply orb_false_elim in H as [Hf Hp].
  destruct (data (cache w)) as [d|]; [|discriminate].
  exists d. repeat split; auto. apply Z.leb_gt in Hage. exact Hage.
Qed.

Lemma GET_due h request w :
  refresh_due h request w = true ->
  GET h request w =
    try_catch
      (refresh h (clock_entry h) (clock_entry h - lastFetch (cache w)))
      (recover h) w.
Proof.
  unfold refresh_due, populated, GET, try_catch, attempt, bind, get_cache.
  cbn [cache]. intros H.
  destruct (data (cache w)) as [d|]; [|reflexivity].
  destruct (forceRefresh_of request); [reflexivity|].
  cbn in H. apply Z.leb_le in H.
  replace (clock_entry h - lastFetch (cache w) <? CACHE_DURATION) with false
    by (symmetry; apply Z.ltb_ge; exact H).
  reflexivity.
Qed.

(** The search is called once whenever a refresh is due, and the cache of
    the resulting world is the old one or the filtered answer. *)
Lemma GET_due_calls h request w :
  refresh_due h request w = true ->
  upstream_calls (world_after h request w) = upstream_calls (called h w).
Proof.
  intros H. unfold world_after. rewrite (GET_due _ _ _ H). run_handler.
  destruct (data (cache w)) eqn:Hd;
    destruct (fetch h _) as [e|resp]; cbn; rewrite ?Hd; try reflexivity;
    destruct (ok resp); cbn; rewrite ?Hd;
    try (destruct (json resp); cbn; rewrite ?Hd; reflexivity);
    destruct (text resp); cbn; rewrite ?Hd; try reflexivity;
    destruct (status resp =? 403); cbn; rewrite ?Hd; reflexivity.
Qed.

(** A failed search with data in the cache: a stale answer, world
    unchanged but for the call. *)
Lemma GET_failed_populated h request w d :
  refresh_due h request w = true ->
  data (cache w) = Some d ->
  upstream_failed (fetch h (searchURL (zone h) (clock_query h))) = true ->
  exists t msg,
    (t = clock_entry h \/ t = clock_catch h)
    /\ (msg = "Using stale cached data due to GitHub API error"
        \/ msg = "Using stale cached data due to API error")
    /\ GET h request w =
         (NextResponse_json
            (cachedBody (cache w) d (t - lastFetch (cache w)) (Some msg))
            None [], called h w).
Proof.
  intros H Hd Hfail. rewrite (GET_due _ _ _ H). run_handler.
  unfold upstream_failed in Hfail.
  destruct (fetch h _) as [e|resp]; cbn.
  - rewrite Hd. eexists _, _. split; [right; reflexivity|].
    split; [right; reflexivity|reflexivity].
  - destruct (ok resp); cbn in *.
    + destruct (json resp); [|discriminate]. cbn. rewrite Hd.
      eexists _, _. split; [right; reflexivity|].
      split; [right; reflexivity|reflexivity].
    + destruct (text resp); cbn; rewrite Hd.
      * eexists _, _. split; [right; reflexivity|].
        split; [right; reflexivity|reflexivity].
      * eexists _, _. split; [left; reflexivity|].
        split; [left; reflexivity|reflexivity].
Qed.

(** A failed search with an empty cache: the error answer. *)
Lemma GET_failed_empty h request w :
  data (cache w) = None ->
  upstream_failed (fetch h (searchURL (zone h) (clock_query h))) = true ->
  GET h request w =
    (NextResponse_json
       (errorBody (failure_message (fetch h (searchURL (zone h) (clock_query h)))))
       (Some 500) [], called h w).
Proof.
  intros Hd Hfail.
  assert (H : refresh_due h request w = true).
  { unfold refresh_due, populated. rewrite Hd.
    destruct (forceRefresh_of request); reflexivity. }
  rewrite (GET_due _ _ _ H). run_handler.
  unfold upstream_failed, failure_message in *.
  destruct (fetch h _) as [e|resp]; cbn.
  - rewrite Hd. reflexivity.
  - destruct (ok resp); cbn in *.
    + destruct (json resp); [|discriminate]. cbn. rewrite Hd. reflexivity.
    + destruct (text resp); cbn; rewrite Hd; [reflexivity|].
      destruct (status resp =? 403); cbn; rewrite Hd; reflexivity.
Qed.

(** A search that delivers: the filtered answer is served and stored. *)
Lemma GET_succeeded h request w resp found :
  refresh_due h request w = true ->
  fetch h (searchURL (zone h) (clock_query h)) = Resolved resp ->
  ok resp = true ->
  json resp = inr found ->
  GET h request w =
    (NextResponse_json
       (freshBody (filteredRepositories (GitHub.items found)) (clock_entry h))
       None cacheControl,
     {| cache := {| data := Some (filteredRepositories (GitHub.items found));
                    lastFetch := clock_entry h |};
        upstream_calls := upstream_calls (called h w) |}).
Proof.
  intros H Hf Hok Hj. rewrite (GET_due _ _ _ H). run_handler.
  rewrite Hf. cbn. rewrite Hok. cbn. rewrite Hj. reflexivity.
Qed.

Lemma upstream_not_failed r :
  upstream_failed r = false ->
  exists resp found, r = Resolved resp /\ ok resp = true /\ json resp = inr found.
Proof.
  destruct r as [e|resp]; cbn; [discriminate|].
  destruct (ok resp) eqn:Hok; cbn; [|discriminate].
  destruct (json resp) as [e|found] eqn:Hj; [discriminate|].
  intros _. exists resp, found. auto.
Qed.

(** ** Claims on the handler *)

(** The two failures the handler tells apart: a call that rejects and an
    answer whose status is not a 2xx one. *)
Lemma upstream_failed_cases h u :
  (exists e, fetch h u = Rejected e)
  \/ (exists resp, fetch h u = Resolved resp /\ ok resp = false) ->
  upstream_failed (fetch h u) = true.
Proof.
  intros [[e H]|[resp [H Hok]]]; rewrite H; cbn; [reflexivity|].
  rewrite Hok. reflexivity.
Qed.

(** What the page sends on "Refresh" always reaches the search. *)
Lemma page_refresh_calls_search h w browserNow :
  upstream_calls (world_after h (pageRequest true browserNow) w)
  = upstream_calls (called h w).
Proof. apply GET_due_calls. reflexivity. Qed.

Lemma has_marker params value :
  In ("t", value) params -> searchParams_has params "t" = true.
Proof.
  intros H. unfold searchParams_has. apply existsb_exists.
  exists ("t", value). split; [exact H|reflexivity].
Qed.

(** C1 (freshness gating).  When the slot holds data, the age of the cache
    (the clock on entry minus the stored fetch time) is below 5 minutes and
    the request carries no bypass marker, the answer has status 200 and
    holds the stored sequence and the stored fetch time, it is not stale and
    has no warning, and the world is left as it was: no call to the search
    service, the cache untouched. *)
Theorem C1_freshness_gating h request w d :
  data (cache w) = Some d ->
  clock_entry h - lastFetch (cache w) < 5 * 60 * 1000 ->
  forceRefresh_of request = false ->
  repositories (body (response_of h request w)) = d
  /\ cached_at (body (response_of h request w))
     = Some (toISOString (lastFetch (cache w)))
  /\ isStale (response_of h request w) = false
  /\ warning (body (response_of h request w)) = None
  /\ http_status (response_of h request w) = 200
  /\ upstream_calls (world_after h request w) = upstream_calls w
  /\ world_after h request w = w.
Proof.
  intros Hd Hage Hf. unfold response_of, world_after.
  rewrite (GET_fresh h request w d Hd Hf Hage). cbn. auto 10.
Qed.

Lemma C1_freshness_gating_witness :
  repositories (body (response_of
     (Sample.host (fixedZone 0) (Sample.t0 + 30000) Sample.offline)
     Sample.plain Sample.populatedWorld))
  = [Sample.agentKit; Sample.tinyLlm].
Proof.
  apply (C1_freshness_gating
           (Sample.host (fixedZone 0) (Sample.t0 + 30000) Sample.offline)
           Sample.plain Sample.populatedWorld
           [Sample.agentKit; Sample.tinyLlm]).
  - reflexivity.
  - vm_compute. reflexivity.
  - reflexivity.
Defined.

(** C2 (bypass forces refresh).  Whatever the cache holds, a request whose
    URL carries the parameter [t], with any value, makes the handler call
    the search service: exactly one call, to the search URL, is added. *)
Theorem C2_bypass_forces_refresh h w params value :
  In ("t", value) params ->
  upstream_calls (world_after h {| url := Parsed params |} w)
  = (upstream_calls w ++ [searchURL (zone h) (clock_query h)])%list.
Proof.
  intros Hin. apply GET_due_calls. unfold refresh_due, forceRefresh_of.
  cbn [url]. rewrite (has_marker _ _ Hin). reflexivity.
Qed.

Lemma C2_bypass_forces_refresh_witness :
  upstream_calls (world_after
     (Sample.host (fixedZone 0) (Sample.t0 + 30000) Sample.offline)
     {| url := Parsed [("t", "1793147430000")] |} Sample.populatedWorld)
  = (upstream_calls Sample.populatedWorld
     ++ [searchURL (fixedZone 0) (Sample.t0 + 30000)])%list.
Proof.
  apply (C2_bypass_forces_refresh
           (Sample.host (fixedZone 0) (Sample.t0 + 30000) Sample.offline)
           Sample.populatedWorld [("t", "1793147430000")] "1793147430000").
  simpl. left. reflexivity.
Defined.

(** C3 (stale fallback).  With data in the slot, when a refresh is due and
    the search fails (the call rejects, the status is not a 2xx one, or the
    body cannot be read), the answer has status 200 and no error, holds the
    stored sequence and its stored fetch time, carries a warning that is not
    empty, and gives the age of the cache in seconds, measured at the clock
    read on entry or in the handler of errors. *)
Theorem C3_stale_fallback h request w d :
  data (cache w) = Some d ->
  refresh_due h request w = true ->
  upstream_failed (fetch h (searchURL (zone h) (clock_query h))) = true ->
  http_status (response_of h request w) = 200
  /\ error (body (response_of h request w)) = None
  /\ repositories (body (response_of h request w)) = d
  /\ total_count (body (response_of h request w)) = Z.of_nat (List.length d)
  /\ cached_at (body (response_of h request w))
     = Some (toISOString (lastFetch (cache w)))
  /\ (exists msg, warning (body (response_of h request w)) = Some msg
                  /\ msg <> "")
  /\ isStale (response_of h request w) = true
  /\ (exists t, (t = clock_entry h \/ t = clock_catch h)
                /\ cache_age_seconds (body (response_of h request w))
                   = Some (round_seconds (t - lastFetch (cache w)))).
Proof.
  intros Hd Hdue Hfail.
  destruct (GET_failed_populated h request w d Hdue Hd Hfail)
    as (t & msg & Ht & Hmsg & HG).
  unfold response_of. rewrite HG. cbn.
  repeat split; try reflexivity.
  - exists msg. split; [reflexivity|]. destruct Hmsg; subst; discriminate.
  - exists t. split; [exact Ht|reflexivity].
Qed.

Lemma C3_stale_fallback_witness :
  http_status (response_of
     (Sample.host (fixedZone 0) (Sample.t0 + 900000) Sample.unavailable)
     Sample.plain Sample.populatedWorld) = 200.
Proof.
  apply (C3_stale_fallback
           (Sample.host (fixedZone 0) (Sample.t0 + 900000) Sample.unavailable)
           Sample.plain Sample.populatedWorld
           [Sample.agentKit; Sample.tinyLlm]).
  - reflexivity.
  - vm_compute. reflexivity.
  - reflexivity.
Defined.

(** C4 (no-data failure).  With an empty slot, a failing search gives an
    answer of status 500 with an empty sequence, a count of zero and an
    error text: the message of what was thrown, which for a status that is
    not a 2xx one names the rate limit (403) or the status. *)
Theorem C4_no_data_failure h request w :
  data (cache w) = None ->
  upstream_failed (fetch h (searchURL (zone h) (clock_query h))) = true ->
  http_status (response_of h request w) = 500
  /\ repositories (body (response_of h request w)) = []
  /\ total_count (body (response_of h request w)) = 0
  /\ error (body (response_of h request w))
     = Some (failure_message (fetch h (searchURL (zone h) (clock_query h))))
  /\ (forall resp errorText,
        fetch h (searchURL (zone h) (clock_query h)) = Resolved resp ->
        ok resp = false -> text resp = inr errorText ->
        error (body (response_of h request w))
        = Some (if (status resp =? 403)%Z
                then "GitHub API rate limit exceeded. Please try again later."
                else ("GitHub API error: "
                      ++ number_to_string (status resp))%string))
  /\ warning (body (response_of h request w)) = None.
Proof.
  intros Hd Hfail. unfold response_of.
  rewrite (GET_failed_empty h request w Hd Hfail). cbn.
  repeat split; try reflexivity.
  intros resp errorText Hf Hok Ht. rewrite Hf. unfold failure_message.
  rewrite Hok, Ht. destruct (status resp =? 403); reflexivity.
Qed.

Lemma C4_no_data_failure_witness :
  http_status (response_of
     (Sample.host (fixedZone 0) Sample.t0 Sample.unavailable)
     Sample.plain Sample.emptyWorld) = 500.
Proof.
  apply (C4_no_data_failure
           (Sample.host (fixedZone 0) Sample.t0 Sample.unavailable)
           Sample.plain Sample.emptyWorld).
  - reflexivity.
  - reflexivity.
Defined.

(** The answers that come from a fresh cache or a search that delivered
    carry the directive; the stale answers and the error answer have no
    header at all. *)
Lemma cache_control_of_GET h request w :
  header (response_of h request w) "Cache-Control"
  = if refresh_due h request w
       && upstream_failed (fetch h (searchURL (zone h) (clock_query h)))
    then None else Some directive.
Proof.
  unfold response_of.
  destruct (refresh_due h request w) eqn:Hdue.
  - destruct (upstream_failed _) eqn:Hfail; cbn [andb].
    + destruct (data (cache w)) as [d|] eqn:Hd.
      * destruct (GET_failed_populated h request w d Hdue Hd Hfail)
          as (t & msg & _ & _ & HG).
        rewrite HG. reflexivity.
      * rewrite (GET_failed_empty h request w Hd Hfail). reflexivity.
    + destruct (upstream_not_failed _ Hfail) as (resp & found & Hf & Hok & Hj).
      rewrite (GET_succeeded h request w resp found Hdue Hf Hok Hj).
      reflexivity.
  - destruct (refresh_due_false h request w Hdue) as (d & Hd & Hf & Hage).
    rewrite (GET_fresh h request w d Hd Hf Hage). reflexivity.
Qed.

Lemma degraded_of_GET h request w :
  isStale (response_of h request w)
  || (http_status (response_of h request w) =? 500)
  = refresh_due h request w
    && upstream_failed (fetch h (searchURL (zone h) (clock_query h))).
Proof.
  unfold response_of.
  destruct (refresh_due h request w) eqn:Hdue.
  - destruct (upstream_failed _) eqn:Hfail; cbn [andb].
    + destruct (data (cache w)) as [d|] eqn:Hd.
      * destruct (GET_failed_populated h request w d Hdue Hd Hfail)
          as (t & msg & _ & _ & HG).
        rewrite HG. reflexivity.
      * rewrite (GET_failed_empty h request w Hd Hfail). reflexivity.
    + destruct (upstream_not_failed _ Hfail) as (resp & found & Hf & Hok & Hj).
      rewrite (GET_succeeded h request w resp found Hdue Hf Hok Hj).
      reflexivity.
  - destruct (refresh_due_false h request w Hdue) as (d & Hd & Hf & Hage).
    rewrite (GET_fresh h request w d Hd Hf Hage). reflexivity.
Qed.

(** C8, as stated, fails: with data in the slot that is 15 minutes old and
    a search service answering 503, the answer is the stale one and it
    carries no [Cache-Control] header. *)
Lemma C8_not_every_response :
  ~ (forall h request w,
       header (response_of h request w) "Cache-Control" = Some directive).
Proof.
  intros H.
  specialize (H (Sample.host (fixedZone 0) (Sample.t0 + 900000)
                   Sample.unavailable)
                Sample.plain Sample.populatedWorld).
  vm_compute in H. discriminate H.
Qed.

(** C8 (cache-control metadata), amended.  An answer of [GET /trends]
    carries [Cache-Control: public, s-maxage=300, stale-while-revalidate=600]
    exactly when it delivers data that is not degraded: served from the
    fresh cache or from a search that succeeded.  The stale answers (those
    with a warning) and the answer of status 500 carry no such header. *)
Theorem C8_cache_control_when_not_degraded h request w :
  header (response_of h request w) "Cache-Control"
  = if isStale (response_of h request w)
       || (http_status (response_of h request w) =? 500)
    then None
    else Some "public, s-maxage=300, stale-while-revalidate=600".
Proof.
  rewrite degraded_of_GET. apply cache_control_of_GET.
Qed.

(** C10 (the slot is written only on success, both fields at once).  After
    a request the cache is the one before it, or a refresh was due, the
    search answered with a 2xx status and a readable body, and the cache
    holds the filtered answer together with the time read on entry.  When
    the search fails, and whenever the answer is stale or an error, the
    cache is the one before the request. *)
Theorem C10_cache_written_only_on_success h request w :
  (cache (world_after h request w) = cache w
   \/ exists resp found,
        refresh_due h request w = true
        /\ fetch h (searchURL (zone h) (clock_query h)) = Resolved resp
        /\ ok resp = true
        /\ json resp = inr found
        /\ cache (world_after h request w)
           = {| data := Some (filteredRepositories (GitHub.items found));
                lastFetch := clock_entry h |})
  /\ (upstream_failed (fetch h (searchURL (zone h) (clock_query h))) = true ->
      cache (world_after h request w) = cache w)
  /\ (isStale (response_of h request w) = true
      \/ http_status (response_of h request w) = 500 ->
      cache (world_after h request w) = cache w).
Proof.
  assert (Hfailed :
    upstream_failed (fetch h (searchURL (zone h) (clock_query h))) = true ->
    cache (world_after h request w) = cache w).
  { intros Hfail. unfold world_after.
    destruct (refresh_due h request w) eqn:Hdue.
    - destruct (data (cache w)) as [d|] eqn:Hd.
      + destruct (GET_failed_populated h request w d Hdue Hd Hfail)
          as (t & msg & _ & _ & HG).
        rewrite HG. reflexivity.
      + rewrite (GET_failed_empty h request w Hd Hfail). reflexivity.
    - destruct (refresh_due_false h request w Hdue) as (d & Hd & Hf & Hage).
      rewrite (GET_fresh h request w d Hd Hf Hage). reflexivity. }
  assert (Hfresh : refresh_due h request w = false ->
                   cache (world_after h request w) = cache w).
  { intros Hdue. unfold world_after.
    destruct (refresh_due_false h request w Hdue) as (d & Hd & Hf & Hage).
    rewrite (GET_fresh h request w d Hd Hf Hage). reflexivity. }
  split; [|split].
  - destruct (refresh_due h request w) eqn:Hdue; [|left; auto].
    destruct (upstream_failed (fetch h (searchURL (zone h) (clock_query h))))
      eqn:Hfail; [left; auto|].
    destruct (upstream_not_failed _ Hfail) as (resp & found & Hf & Hok & Hj).
    right. exists resp, found. repeat split; auto.
    unfold world_after.
    rewrite (GET_succeeded h request w resp found Hdue Hf Hok Hj).
    reflexivity.
  - exact Hfailed.
  - intros Hdeg.
    assert (Hb : isStale (response_of h request w)
                 || (http_status (response_of h request w) =? 500) = true).
    { destruct Hdeg as [Hs|Hs]; rewrite Hs; [reflexivity|apply orb_true_r]. }
    rewrite degraded_of_GET in Hb. apply andb_true_iff in Hb as [_ Hfail].
    auto.
Qed.

Lemma C10_cache_written_only_on_success_witness :
  cache (world_after
     (Sample.host (fixedZone 0) (Sample.t0 + 900000) Sample.unavailable)
     Sample.plain Sample.populatedWorld)
  = cache Sample.populatedWorld.
Proof.
  apply (proj1 (proj2 (C10_cache_written_only_on_success
           (Sample.host (fixedZone 0) (Sample.t0 + 900000) Sample.unavailable)
           Sample.plain Sample.populatedWorld))).
  reflexivity.
Defined.

(** ** Strings and the pattern *)

Lemma append_assoc (a b c : string) : ((a ++ b) ++ c = a ++ (b ++ c))%string.
Proof. induction a as [|x a IH]; cbn; [reflexivity|now rewrite IH]. Qed.

Lemma toLowerCase_append (a b : string) :
  (toLowerCase (a ++ b) = toLowerCase a ++ toLowerCase b)%string.
Proof. induction a as [|x a IH]; cbn; [reflexivity|now rewrite IH]. Qed.

Lemma startsWith_spec s p :
  startsWith s p = true <-> exists post, (s = p ++ post)%string.
Proof.
  revert s. induction p as [|a p IH]; intros s; cbn.
  - split; [intros _; exists s; reflexivity|reflexivity].
  - destruct s as [|b s].
    + split; [discriminate|intros [post H]; discriminate H].
    + rewrite andb_true_iff, Ascii.eqb_eq, IH. split.
      * intros [-> [post ->]]. exists post. reflexivity.
      * intros [post H]. injection H as -> ->. split; [reflexivity|].
        exists post. reflexivity.
Qed.

Lemma includes_spec s sub : includes s sub = true <-> occurs_in sub s.
Proof.
  unfold occurs_in. induction s as [|c s IH]; cbn [includes].
  - rewrite orb_false_r, startsWith_spec. split.
    + intros [post H]. exists ""%string, post. exact H.
    + intros [[|x pre] [post H]]; [exists post; exact H|discriminate H].
  - rewrite orb_true_iff, startsWith_spec, IH. split.
    + intros [[post H]|[pre [post H]]].
      * exists ""%string, post. exact H.
      * exists (String c pre), post. cbn. now rewrite H.
    + intros [[|x pre] [post H]].
      * left. exists post. exact H.
      * right. cbn in H. injection H as -> H. exists pre, post. exact H.
Qed.

Lemma match_here_spec alt s :
  match_here alt s = true
  <-> exists m post, matched_by alt m /\ (s = m ++ post)%string.
Proof.
  revert s. induction alt as [|a alt IH]; intros s; cbn.
  - split; [|reflexivity]. intros _. exists ""%string, s.
    split; [constructor|reflexivity].
  - destruct s as [|c s].
    + split; [discriminate|]. intros (m & post & Hm & H).
      inversion Hm; subst. discriminate H.
    + rewrite andb_true_iff, IH. split.
      * intros [Ha (m & post & Hm & ->)]. exists (String c m), post.
        split; [constructor; assumption|reflexivity].
      * intros (m & post & Hm & H). inversion Hm; subst.
        cbn in H. injection H as -> ->. split; [assumption|].
        eexists _, post. split; [eassumption|reflexivity].
Qed.

Lemma search_spec re s : search re s = true <-> found_in re s.
Proof.
  unfold found_in. induction s as [|c s IH]; cbn [search].
  - rewrite orb_false_r, existsb_exists. split.
    + intros (alt & Hin & Hm). apply match_here_spec in Hm as (m & post & Hm & H).
      exists alt, ""%string, m, post. auto.
    + intros (alt & pre & m & post & Hin & Hm & H). exists alt.
      split; [exact Hin|]. apply match_here_spec.
      destruct pre; [|discriminate H]. exists m, post. auto.
  - rewrite orb_true_iff, existsb_exists, IH. split.
    + intros [(alt & Hin & Hm)|(alt & pre & m & post & Hin & Hm & H)].
      * apply match_here_spec in Hm as (m & post & Hm & H).
        exists alt, ""%string, m, post. auto.
      * exists alt, (String c pre), m, post. cbn. rewrite H. auto.
    + intros (alt & [|x pre] & m & post & Hin & Hm & H).
      * left. exists alt. split; [exact Hin|]. apply match_here_spec.
        exists m, post. auto.
      * right. cbn in H. injection H as -> H.
        exists alt, pre, m, post. auto.
Qed.

Lemma hasAITopic_spec repo : hasAITopic repo = true <-> topic_contains_term repo.
Proof.
  unfold hasAITopic, topic_contains_term. rewrite existsb_exists. split.
  - intros (topic & Hin & H). apply existsb_exists in H as (term & Ht & H).
    apply includes_spec in H. exists topic, term. auto.
  - intros (topic & term & Hin & Ht & H). exists topic. split; [exact Hin|].
    apply existsb_exists. exists term. split; [exact Ht|].
    apply includes_spec. exact H.
Qed.

(** What the callback of the filter decides. *)
Lemma keep_spec repo :
  keep repo = true
  <-> 0 <= GitHub.stargazers_count repo
      /\ (topic_contains_term repo \/ text_matches repo).
Proof.
  unfold keep, nameOrDescHasAI, text_matches.
  rewrite andb_true_iff, orb_true_iff, Z.leb_le, hasAITopic_spec, search_spec.
  tauto.
Qed.

Lemma occurs_in_self s : occurs_in s s.
Proof.
  exists ""%string, ""%string. cbn. induction s as [|c s IH]; cbn;
    [reflexivity|now rewrite <- IH].
Qed.

Lemma topic_is_machine_learning repo :
  topic_is repo "machine-learning" -> topic_contains_term repo.
Proof.
  intros (topic & Hin & H). exists topic, "machine-learning"%string.
  split; [exact Hin|]. split; [cbn; auto|]. rewrite H. apply occurs_in_self.
Qed.

Lemma description_mentions_neural repo :
  description_mentions repo "neural" -> text_matches repo.
Proof.
  intros (d & Hd & pre & post & H).
  unfold text_matches, found_in, subject, description_or_empty.
  rewrite Hd, !toLowerCase_append, H.
  exists (parse_alt "neural"),
         (toLowerCase (GitHub.name repo) ++ toLowerCase " " ++ pre)%string,
         "neural"%string, post.
  split; [cbn; auto 10|]. split.
  - repeat constructor.
  - now rewrite !append_assoc.
Qed.

(** ** Claims on the filter *)

(** C6, as stated, fails in its second half when "an AI-vocabulary topic"
    is a topic that is a term of the vocabulary: a repository named
    [ledger] with the one topic [blockchain] and no description has no such
    topic and none of the listed words in its name, and the filter keeps it,
    because [blockchain] has [ai] inside. *)
Lemma C6_blockchain_is_kept :
  ~ (forall repo,
       spec_has_vocabulary_topic repo = false ->
       spec_has_adjacent_word repo = false ->
       keep repo = false).
Proof.
  intros H. specialize (H Sample.ledger eq_refl eq_refl).
  vm_compute in H. discriminate H.
Qed.

Lemma keep_with_stars repo n :
  keep (with_stars repo n)
  = (hasAITopic repo || nameOrDescHasAI repo) && (0 <=? n).
Proof. reflexivity. Qed.

(** C6 (filter inclusion and exclusion), amended.  A repository with a
    star count that is not negative is kept when its topic set holds
    "machine-learning" in any letter case or its description has "neural"
    inside in any letter case.  A repository is left out when no topic has
    a term of the topic vocabulary anywhere inside it (a topic need not be
    equal to the term) and the pattern of words matches nowhere in the
    lower-cased text "name, space, description", where the dot of
    [computer.vision] and [data.science] stands for any one character.  The
    star count decides nothing as long as it is not negative. *)
Theorem C6_filter_inclusion_exclusion repo :
  (0 <= GitHub.stargazers_count repo ->
   topic_is repo "machine-learning" \/ description_mentions repo "neural" ->
   keep repo = true)
  /\ (~ topic_contains_term repo -> ~ text_matches repo -> keep repo = false)
  /\ (forall n, 0 <= n -> keep (with_stars repo n) = keep (with_stars repo 0)).
Proof.
  split; [|split].
  - intros Hs H. apply keep_spec. split; [exact Hs|].
    destruct H as [H|H].
    + left. apply topic_is_machine_learning. exact H.
    + right. apply description_mentions_neural. exact H.
  - intros Ht Hw. destruct (keep repo) eqn:Hk; [|reflexivity].
    apply keep_spec in Hk as [_ [H|H]]; contradiction.
  - intros n Hn. rewrite !keep_with_stars.
    apply Z.leb_le in Hn. rewrite Hn. reflexivity.
Qed.

Lemma C6_filter_inclusion_exclusion_witness : keep Sample.toolkit = true.
Proof.
  apply (proj1 (C6_filter_inclusion_exclusion Sample.toolkit)).
  - simpl. lia.
  - left. exists "Machine-Learning"%string. split.
    + simpl. left. reflexivity.
    + reflexivity.
Defined.

Lemma subsequence_filter {A} (f : A -> bool) l : subsequence (filter f l) l.
Proof.
  induction l as [|x l IH]; cbn.
  - constructor.
  - destruct (f x); constructor; exact IH.
Qed.

Lemma subsequence_Forall {A} (P : A -> Prop) l1 l2 :
  subsequence l1 l2 -> Forall P l2 -> Forall P l1.
Proof.
  induction 1 as [|x l1 l2 _ IH|x l1 l2 _ IH]; intros HF.
  - constructor.
  - inversion HF; subst. auto.
  - inversion HF; subst. constructor; auto.
Qed.

Lemma subsequence_sorted {A} (R : A -> A -> Prop) l1 l2 :
  subsequence l1 l2 -> StronglySorted R l2 -> StronglySorted R l1.
Proof.
  induction 1 as [|x l1 l2 Hs IH|x l1 l2 Hs IH]; intros HS.
  - constructor.
  - apply StronglySorted_inv in HS as [HS _]. auto.
  - apply StronglySorted_inv in HS as [HS HF]. constructor; [auto|].
    eapply subsequence_Forall; eassumption.
Qed.

(** C7 (rank preservation).  The filtered sequence is the input with some
    elements left out and the others in their order; so an input sorted by
    star count, largest first, gives an output sorted the same way. *)
Theorem C7_rank_preservation repositories :
  subsequence (filteredRepositories repositories) repositories
  /\ (stars_descending repositories ->
      stars_descending (filteredRepositories repositories)).
Proof.
  split.
  - apply subsequence_filter.
  - apply subsequence_sorted, subsequence_filter.
Qed.

Lemma C7_rank_preservation_witness :
  stars_descending
    (filteredRepositories [Sample.zlib; Sample.agentKit; Sample.tinyLlm]).
Proof.
  apply (proj2 (C7_rank_preservation
                  [Sample.zlib; Sample.agentKit; Sample.tinyLlm])).
  repeat constructor; simpl; lia.
Defined.

(** ** Dates and the query *)

(** [YearFromTime] is the year ECMAScript defines: the last one that
    starts on or before the day of [t]. *)
Lemma YearFromTime_spec t :
  DayFromYear (YearFromTime t) <= Day t < DayFromYear (YearFromTime t + 1).
Proof.
  unfold YearFromTime. generalize (Day t). intros d. unfold DayFromYear.
  repeat match goal with
         | |- context [ ?a <=? ?b ] => destruct (Z.leb_spec a b)
         end;
    Z.div_mod_to_equations; lia.
Qed.

(** Moving the day of the month moves the day number by as much. *)
Lemma MakeDay_shift t k :
  MakeDay (YearFromTime t) (MonthFromTime t) (DateFromTime t + k) = Day t + k.
Proof. unfold MakeDay, DateFromTime, DayWithinYear, InLeapYear. lia. Qed.

Lemma MakeDate_Day t k :
  MakeDate (Day t + k) (TimeWithinDay t) = t + k * msPerDay.
Proof.
  unfold MakeDate, Day, TimeWithinDay.
  pose proof (Z.div_mod t msPerDay ltac:(discriminate)). lia.
Qed.

(** In a zone that keeps one offset, [setDate(getDate() - 7)] goes back
    seven days of 24 hours. *)
Lemma cutoff_fixedZone offset t :
  cutoff (fixedZone offset) t = t - 7 * msPerDay.
Proof.
  unfold cutoff, setDate, getDate, LocalTime, UTC, fixedZone.
  cbn [offset_at_utc offset_at_local].
  replace (DateFromTime (t + offset) - 7)
    with (DateFromTime (t + offset) + (-7)) by lia.
  rewrite MakeDay_shift, MakeDate_Day. lia.
Qed.

Lemma Day_shift t k : Day (t + k * msPerDay) = Day t + k.
Proof. unfold Day. apply Z.div_add. discriminate. Qed.

(** The calendar date depends on the day number only. *)
Lemma isoDate_of_Day a b : Day a = Day b -> isoDate a = isoDate b.
Proof.
  intros H.
  unfold isoDate, DateFromTime, MonthFromTime, InLeapYear, DayWithinYear,
    YearFromTime.
  rewrite H. reflexivity.
Qed.

Lemma digit_not_T n : Ascii.eqb (digit n) "T" = false.
Proof.
  unfold digit. pose proof (Z.mod_pos_bound n 10 ltac:(lia)) as Hb.
  assert (H : n mod 10 = 0 \/ n mod 10 = 1 \/ n mod 10 = 2 \/ n mod 10 = 3
              \/ n mod 10 = 4 \/ n mod 10 = 5 \/ n mod 10 = 6
              \/ n mod 10 = 7 \/ n mod 10 = 8 \/ n mod 10 = 9) by lia.
  repeat destruct H as [H|H]; rewrite H; reflexivity.
Qed.

Lemma no_unit_append sep a b :
  no_unit sep (a ++ b) = no_unit sep a && no_unit sep b.
Proof.
  induction a as [|c a IH]; cbn; [reflexivity|].
  rewrite IH. apply andb_assoc.
Qed.

Lemma no_T_pad2 n : no_unit "T" (pad2 n) = true.
Proof. cbn. rewrite !digit_not_T. reflexivity. Qed.

Lemma no_T_isoYear y : no_unit "T" (isoYear y) = true.
Proof.
  unfold isoYear.
  destruct ((0 <=? y) && (y <=? 9999)); [|destruct (0 <=? y)];
    cbn; rewrite !digit_not_T; reflexivity.
Qed.

Lemma no_T_isoDate t : no_unit "T" (isoDate t) = true.
Proof.
  unfold isoDate.
  rewrite !no_unit_append, no_T_isoYear, !no_T_pad2. reflexivity.
Qed.

Lemma split_head_append sep a b :
  no_unit sep a = true -> split_head sep (a ++ String sep b) = a.
Proof.
  induction a as [|c a IH]; cbn.
  - rewrite Ascii.eqb_refl. reflexivity.
  - intros H. apply andb_true_iff in H as [Hc Ha].
    apply negb_true_iff in Hc. rewrite Hc, (IH Ha). reflexivity.
Qed.

(** [toISOString().split('T')[0]] is the calendar date. *)
Lemma date_part_of_toISOString t :
  split_head "T" (toISOString t) = isoDate t.
Proof. unfold toISOString. apply split_head_append, no_T_isoDate. Qed.

Lemma dateString_is_isoDate tz t : dateString tz t = isoDate (cutoff tz t).
Proof. apply date_part_of_toISOString. Qed.

(** On a host whose zone keeps one offset (UTC among them) the cutoff of
    the query is the UTC calendar date seven days before the time of the
    refresh, at any time of the day, and the request is the search for the
    topic [ai] created after that date, sorted by stars, largest first, 30
    to the one page. *)
Lemma search_request_fixedZone offset t :
  dateString (fixedZone offset) t = isoDate (t - 7 * msPerDay)
  /\ Day (t - 7 * msPerDay) = Day t - 7
  /\ searchURL (fixedZone offset) t
     = ("https://api.github.com/search/repositories?q="
        ++ encodeURIComponent
             ("topic:ai created:>" ++ isoDate (t - 7 * msPerDay))
        ++ "&sort=stars&order=desc&per_page=30")%string.
Proof.
  assert (H : dateString (fixedZone offset) t = isoDate (t - 7 * msPerDay)).
  { rewrite dateString_is_isoDate, cutoff_fixedZone. reflexivity. }
  split; [exact H|]. split.
  - replace (t - 7 * msPerDay) with (t + (-7) * msPerDay) by lia.
    rewrite Day_shift. lia.
  - unfold searchURL, query. rewrite H. reflexivity.
Qed.

(** C5 (query cutoff), where the code misses it.  On a host in a zone that
    put its clocks back less than seven days ago, here three hours ahead of
    UTC until 2026-10-24T23:00Z and two hours from then on, a refresh at
    2026-10-28T00:30Z (02:30 local time on the 28th) asks for repositories
    created after 2026-10-20, while the calendar date seven days before
    that time is 2026-10-21, by the UTC calendar and by the local one.  The
    rest of the request is as the claim says: topic [ai], creation date
    after the cutoff, sorted by stars, descending, 30 to the page. *)
Theorem C5_cutoff_after_clocks_went_back :
  dateString Sample.jerusalem Sample.t0 = "2026-10-20"%string
  /\ toISOString Sample.t0 = "2026-10-28T00:30:00.000Z"%string
  /\ isoDate (Sample.t0 - 7 * msPerDay) = "2026-10-21"%string
  /\ isoDate (LocalTime Sample.jerusalem Sample.t0 - 7 * msPerDay)
     = "2026-10-21"%string
  /\ searchURL Sample.jerusalem Sample.t0
     = ("https://api.github.com/search/repositories?q="
        ++ "topic%3Aai%20created%3A%3E2026-10-20"
        ++ "&sort=stars&order=desc&per_page=30")%string.
Proof. vm_compute. repeat split; reflexivity. Qed.

(** ** The summarize route *)

(** C9 (summarize validation).  A request whose text is missing or empty,
    whose credential is missing or empty, or whose provider selector is not
    one of the supported values fails with a validation error, and no call
    goes to a provider. *)
Theorem C9_summarize_validation network request :
  Summarize.present (Summarize.text request) = None
  \/ Summarize.present (Summarize.apiKey request) = None
  \/ Summarize.supported (Summarize.provider request) = false ->
  Summarize.is_validation_error (fst (Summarize.summarize network request))
  = true
  /\ snd (Summarize.summarize network request) = [].
Proof.
  unfold Summarize.summarize, Summarize.supported, Summarize.present.
  destruct request as [t k p]. cbn [Summarize.text Summarize.apiKey Summarize.provider].
  intros H.
  destruct t as [t|]; [destruct (String.eqb t "")|];
    try (cbn; split; reflexivity);
  destruct k as [k|]; [destruct (String.eqb k "")|];
    try (cbn; split; reflexivity);
  destruct p as [p|]; [destruct (String.eqb p "") eqn:Hp|];
    try (cbn; split; reflexivity).
  destruct (Summarize.parseProvider p); [|cbn; split; reflexivity].
  destruct H as [H|[H|H]]; discriminate H.
Qed.

Lemma C9_summarize_validation_witness :
  snd (Summarize.summarize
         (fun _ => {| Summarize.reply_status := 200;
                      Summarize.reply_text := "A summary." |})
         {| Summarize.text := Some "agent-kit: Agents";
            Summarize.apiKey := Some "";
            Summarize.provider := Some "openai" |}) = [].
Proof.
  apply (C9_summarize_validation
           (fun _ => {| Summarize.reply_status := 200;
                        Summarize.reply_text := "A summary." |})
           {| Summarize.text := Some "agent-kit: Agents";
              Summarize.apiKey := Some "";
              Summarize.provider := Some "openai" |}).
  right. left. reflexivity.
Defined.

(** The page itself sends nothing to the route without a key. *)
Lemma handleSummarize_needs_key storage repository :
  Summarize.present (Summarize.ai_api_key storage) = None ->
  Summarize.handleSummarize storage repository = Summarize.AskForKey.
Proof.
  unfold Summarize.handleSummarize, Summarize.present.
  destruct (Summarize.ai_api_key storage) as [k|]; [|reflexivity].
  destruct (String.eqb k ""); [reflexivity|discriminate].
Qed.

(** ** A run of two requests

    A cold cache, a search that returns one repository outside the topic
    among two inside it, then a second request 30 seconds later. *)

Example cold_then_warm :
  let net := Sample.answers [Sample.zlib; Sample.agentKit; Sample.tinyLlm] in
  let first := GET (Sample.host (fixedZone 0) Sample.t0 net)
                   Sample.plain Sample.emptyWorld in
  let second := GET (Sample.host (fixedZone 0) (Sample.t0 + 30000) net)
                    Sample.plain (snd first) in
  repositories (body (fst first)) = [Sample.agentKit; Sample.tinyLlm]
  /\ total_count (body (fst first)) = 2
  /\ cache_age_seconds (body (fst first)) = Some 0
  /\ repositories (body (fst second)) = [Sample.agentKit; Sample.tinyLlm]
  /\ cache_age_seconds (body (fst second)) = Some 30
  /\ List.length (upstream_calls (snd second)) = 1%nat.
Proof. vm_compute. repeat split; reflexivity. Qed.

(** * Further properties of the route *)

(** The five ways a request ends. *)
Lemma GET_cases h request w :
  (exists d, data (cache w) = Some d
     /\ refresh_due h request w = false
     /\ GET h request w =
          (NextResponse_json
             (cachedBody (cache w) d
                (clock_entry h - lastFetch (cache w)) None)
             None cacheControl, w))
  \/ (exists d t msg, data (cache w) = Some d
        /\ refresh_due h request w = true
        /\ upstream_failed (fetch h (searchURL (zone h) (clock_query h))) = true
        /\ GET h request w =
             (NextResponse_json
                (cachedBody (cache w) d (t - lastFetch (cache w)) (Some msg))
                None [], called h w))
  \/ (data (cache w) = None
      /\ upstream_failed (fetch h (searchURL (zone h) (clock_query h))) = true
      /\ GET h request w =
           (NextResponse_json
              (errorBody (failure_message
                            (fetch h (searchURL (zone h) (clock_query h)))))
              (Some 500) [], called h w))
  \/ (exists resp found,
        refresh_due h request w = true
        /\ fetch h (searchURL (zone h) (clock_query h)) = Resolved resp
        /\ ok resp = true /\ json resp = inr found
        /\ GET h request w =
             (NextResponse_json
                (freshBody (filteredRepositories (GitHub.items found))
                   (clock_entry h))
                None cacheControl,
              {| cache :=
                   {| data := Some (filteredRepositories (GitHub.items found));
                      lastFetch := clock_entry h |};
                 upstream_calls := upstream_calls (called h w) |})).
Proof.
  destruct (refresh_due h request w) eqn:Hdue.
  - destruct (upstream_failed (fetch h (searchURL (zone h) (clock_query h))))
      eqn:Hfail.
    + destruct (data (cache w)) as [d|] eqn:Hd.
      * right. left.
        destruct (GET_failed_populated h request w d Hdue Hd Hfail)
          as (t & msg & _ & _ & HG).
        exists d, t, msg. auto.
      * right. right. left. split; [reflexivity|]. split; [reflexivity|].
        apply GET_failed_empty; assumption.
    + right. right. right.
      destruct (upstream_not_failed _ Hfail) as (resp & found & Hf & Hok & Hj).
      exists resp, found. repeat split; auto.
      apply (GET_succeeded h request w resp found); assumption.
  - left. destruct (refresh_due_false h request w Hdue) as (d & Hd & Hf & Hage).
    exists d. repeat split; auto. apply GET_fresh; assumption.
Qed.

(** X1.  What a refresh stores is what the next reader gets: after a
    request that refreshed with success, a request without the marker whose
    clock is less than five minutes later is answered with the same
    sequence and the time of that refresh, and makes no call. *)
Theorem refresh_then_read h request w resp found h2 request2 :
  refresh_due h request w = true ->
  fetch h (searchURL (zone h) (clock_query h)) = Resolved resp ->
  ok resp = true ->
  json resp = inr found ->
  forceRefresh_of request2 = false ->
  clock_entry h2 - clock_entry h < 5 * 60 * 1000 ->
  repositories (body (response_of h request w))
  = filteredRepositories (GitHub.items found)
  /\ repositories (body (response_of h2 request2 (world_after h request w)))
     = filteredRepositories (GitHub.items found)
  /\ cached_at (body (response_of h2 request2 (world_after h request w)))
     = cached_at (body (response_of h request w))
  /\ world_after h2 request2 (world_after h request w)
     = world_after h request w.
Proof.
  intros Hdue Hf Hok Hj Hf2 Hage.
  unfold response_of, world_after.
  rewrite (GET_succeeded h request w resp found Hdue Hf Hok Hj).
  cbn [fst snd].
  match goal with
  | |- context [GET h2 request2 ?w1] =>
      rewrite (GET_fresh h2 request2 w1
                 (filteredRepositories (GitHub.items found))
                 eq_refl Hf2 Hage)
  end.
  cbn. auto.
Qed.

Lemma refresh_then_read_witness :
  world_after
    (Sample.host (fixedZone 0) (Sample.t0 + 30000)
       (Sample.answers [Sample.agentKit]))
    Sample.plain
    (world_after
       (Sample.host (fixedZone 0) Sample.t0 (Sample.answers [Sample.agentKit]))
       Sample.plain Sample.emptyWorld)
  = world_after
      (Sample.host (fixedZone 0) Sample.t0 (Sample.answers [Sample.agentKit]))
      Sample.plain Sample.emptyWorld.
Proof.
  apply (refresh_then_read
           (Sample.host (fixedZone 0) Sample.t0 (Sample.answers [Sample.agentKit]))
           Sample.plain Sample.emptyWorld
           {| status := 200; statusText := "OK"; text := inr "{}";
              json := inr {| GitHub.total_count := 1;
                             GitHub.incomplete_results := false;
                             GitHub.items := [Sample.agentKit] |} |}
           {| GitHub.total_count := 1; GitHub.incomplete_results := false;
              GitHub.items := [Sample.agentKit] |}
           (Sample.host (fixedZone 0) (Sample.t0 + 30000)
              (Sample.answers [Sample.agentKit]))
           Sample.plain).
  - reflexivity.
  - reflexivity.
  - reflexivity.
  - reflexivity.
  - reflexivity.
  - vm_compute. reflexivity.
Defined.

(** X2.  The search service is called exactly when a refresh is due (the
    marker is there, the slot is empty, or the data is five minutes old or
    more), and then once: the list of calls grows by the one search URL or
    not at all, and nothing is ever taken from it. *)
Theorem search_called_iff_due h request w :
  upstream_calls (world_after h request w)
  = (upstream_calls w
     ++ if refresh_due h request w
        then [searchURL (zone h) (clock_query h)] else [])%list.
Proof.
  destruct (refresh_due h request w) eqn:Hdue.
  - apply GET_due_calls. exact Hdue.
  - destruct (refresh_due_false h request w Hdue) as (d & Hd & Hf & Hage).
    unfold world_after. rewrite (GET_fresh h request w d Hd Hf Hage).
    cbn. rewrite app_nil_r. reflexivity.
Qed.

(** X3.  In every answer [total_count] is the number of repositories in
    the answer: it counts what is sent, not what the search found. *)
Theorem total_count_is_length h request w :
  total_count (body (response_of h request w))
  = Z.of_nat (List.length (repositories (body (response_of h request w)))).
Proof.
  unfold response_of.
  destruct (GET_cases h request w)
    as [(d & _ & _ & HG)|[(d & t & msg & _ & _ & _ & HG)
       |[(_ & _ & HG)|(resp & found & _ & _ & _ & _ & HG)]]];
    rewrite HG; reflexivity.
Qed.

Lemma GET_keeps_relevant h request w :
  Diagnostics.cache_relevant (cache w) ->
  Diagnostics.all_relevant (repositories (body (response_of h request w)))
  /\ Diagnostics.cache_relevant (cache (world_after h request w)).
Proof.
  unfold Diagnostics.cache_relevant, response_of, world_after. intros Hc.
  assert (Hfilter : forall l, Diagnostics.all_relevant (filteredRepositories l)).
  { intros l. apply Forall_forall. intros x Hx.
    apply filter_In in Hx. apply Hx. }
  destruct (GET_cases h request w)
    as [(d & Hd & _ & HG)|[(d & t & msg & Hd & _ & _ & HG)
       |[(Hd & _ & HG)|(resp & found & _ & _ & _ & _ & HG)]]];
    rewrite HG; cbn; try rewrite Hd in *; cbn; auto.
  split; [constructor|exact I].
Qed.

(** X4.  From the start of the process on, whatever the requests, the
    clocks and the answers of the search service: every repository in
    every answer, and every repository in the cache, passes the relevance
    filter (so its star count is not negative). *)
Theorem only_relevant_repositories_served requests :
  Forall (fun r => Diagnostics.all_relevant (repositories (body r)))
    (Diagnostics.answers requests Diagnostics.initialWorld)
  /\ Diagnostics.cache_relevant
       (cache (Diagnostics.serve requests Diagnostics.initialWorld)).
Proof.
  assert (H : forall w, Diagnostics.cache_relevant (cache w) ->
    Forall (fun r => Diagnostics.all_relevant (repositories (body r)))
      (Diagnostics.answers requests w)
    /\ Diagnostics.cache_relevant (cache (Diagnostics.serve requests w))).
  { induction requests as [|[h request] rest IH]; intros w Hw; cbn.
    - split; [constructor|exact Hw].
    - destruct (GET_keeps_relevant h request w Hw) as [Hr Hc].
      destruct (IH _ Hc) as [IH1 IH2].
      split; [constructor; assumption|exact IH2]. }
  apply H. exact I.
Qed.





(** X6.  There is no memory of failures.  From the start of the process,
    while the search service fails, every request calls it again, every
    answer is the error of status 500, and the slot stays empty. *)
Theorem no_backoff_while_search_is_down requests :
  Diagnostics.search_down requests ->
  List.length
    (upstream_calls (Diagnostics.serve requests Diagnostics.initialWorld))
  = List.length requests
  /\ Forall (fun r => http_status r = 500)
       (Diagnostics.answers requests Diagnostics.initialWorld)
  /\ cache (Diagnostics.serve requests Diagnostics.initialWorld) = initialCache.
Proof.
  assert (H : forall w, cache w = initialCache ->
    Diagnostics.search_down requests ->
    List.length (upstream_calls (Diagnostics.serve requests w))
    = (List.length (upstream_calls w) + List.length requests)%nat
    /\ Forall (fun r => http_status r = 500) (Diagnostics.answers requests w)
    /\ cache (Diagnostics.serve requests w) = initialCache).
  { induction requests as [|[h request] rest IH]; intros w Hw Hd; cbn.
    - split; [lia|]. split; [constructor|exact Hw].
    - inversion Hd as [|? ? Hd1 Hd2]; subst. cbn in Hd1.
      assert (Hnone : data (cache w) = None) by (rewrite Hw; reflexivity).
      rewrite (GET_failed_empty h request w Hnone Hd1). cbn [fst snd].
      destruct (IH (called h w) Hw Hd2) as (IH1 & IH2 & IH3).
      split; [|split].
      + rewrite IH1. unfold called. cbn. rewrite length_app. cbn. lia.
      + constructor; [reflexivity|exact IH2].
      + exact IH3. }
  intros Hd. apply (H Diagnostics.initialWorld eq_refl Hd).
Qed.

Lemma no_backoff_while_search_is_down_witness :
  List.length
    (upstream_calls
       (Diagnostics.serve
          [(Sample.host (fixedZone 0) Sample.t0 Sample.offline, Sample.plain);
           (Sample.host (fixedZone 0) (Sample.t0 + 10) Sample.unavailable,
            Sample.plain)]
          Diagnostics.initialWorld))
  = 2%nat.
Proof.
  apply (no_backoff_while_search_is_down
           [(Sample.host (fixedZone 0) Sample.t0 Sample.offline, Sample.plain);
            (Sample.host (fixedZone 0) (Sample.t0 + 10) Sample.unavailable,
             Sample.plain)]).
  repeat constructor.
Defined.

(** X7.  The stale answer tells which failure it covers.  With data in
    the slot and a refresh due: a status that is not a 2xx one, with a
    readable body, gives the warning that names GitHub and the age at the
    clock read on entry; a call that rejects gives the general warning and
    the age at the clock read in the handler of errors. *)
Theorem stale_warning_tells_the_failure h request w d :
  data (cache w) = Some d ->
  refresh_due h request w = true ->
  (forall resp errorText,
      fetch h (searchURL (zone h) (clock_query h)) = Resolved resp ->
      ok resp = false -> text resp = inr errorText ->
      warning (body (response_of h request w))
      = Some "Using stale cached data due to GitHub API error"%string
      /\ cache_age_seconds (body (response_of h request w))
         = Some (round_seconds (clock_entry h - lastFetch (cache w))))
  /\ (forall e,
         fetch h (searchURL (zone h) (clock_query h)) = Rejected e ->
         warning (body (response_of h request w))
         = Some "Using stale cached data due to API error"%string
         /\ cache_age_seconds (body (response_of h request w))
            = Some (round_seconds (clock_catch h - lastFetch (cache w)))).
Proof.
  intros Hd Hdue. unfold response_of. rewrite (GET_due _ _ _ Hdue).
  split.
  - intros resp errorText Hf Hok Ht. run_handler. rewrite Hf. cbn.
    rewrite Hok. cbn. rewrite Ht. cbn. rewrite Hd. cbn. auto.
  - intros e Hf. run_handler. rewrite Hf. cbn. rewrite Hd. cbn. auto.
Qed.

Lemma stale_warning_tells_the_failure_witness :
  warning (body (response_of
     (Sample.host (fixedZone 0) (Sample.t0 + 900000) Sample.offline)
     Sample.plain Sample.populatedWorld))
  = Some "Using stale cached data due to API error"%string.
Proof.
  apply (proj2 (stale_warning_tells_the_failure
           (Sample.host (fixedZone 0) (Sample.t0 + 900000) Sample.offline)
           Sample.plain Sample.populatedWorld
           [Sample.agentKit; Sample.tinyLlm] eq_refl eq_refl)
         (ErrorObject "fetch failed")).
  reflexivity.
Defined.

(** X8.  The diagnostic route and the handler agree.  For a slot that has
    been filled (its fetch time is not 0) the flag [is_valid] of [OPTIONS]
    is true exactly when a [GET] without the marker at the same clock is
    served from the cache, and it is [null] exactly when the slot is empty;
    the duration reported is 5 minutes. *)
Theorem diagnostic_agrees_with_handler h request w :
  lastFetch (cache w) <> 0 ->
  forceRefresh_of request = false ->
  Diagnostics.is_valid
    (Diagnostics.cache_status (Diagnostics.OPTIONS (clock_entry h) (cache w)))
  = (if populated (cache w) then Some (negb (refresh_due h request w))
     else None)
  /\ Diagnostics.has_data
       (Diagnostics.cache_status (Diagnostics.OPTIONS (clock_entry h) (cache w)))
     = populated (cache w)
  /\ Diagnostics.cache_duration_minutes
       (Diagnostics.OPTIONS (clock_entry h) (cache w)) = 5.
Proof.
  intros HL Hf. unfold Diagnostics.OPTIONS, refresh_due, populated. cbn.
  apply Z.eqb_neq in HL. rewrite HL, Hf.
  destruct (data (cache w)); cbn; [|auto].
  rewrite Z.leb_antisym, negb_involutive. auto.
Qed.

Lemma diagnostic_agrees_with_handler_witness :
  Diagnostics.is_valid
    (Diagnostics.cache_status
       (Diagnostics.OPTIONS (Sample.t0 + 30000) (cache Sample.populatedWorld)))
  = Some true.
Proof.
  apply (proj1 (diagnostic_agrees_with_handler
           (Sample.host (fixedZone 0) (Sample.t0 + 30000) Sample.offline)
           Sample.plain Sample.populatedWorld
           ltac:(vm_compute; discriminate) eq_refl)).
Defined.

(** * Further properties of the query *)

Lemma DayFromYear_step y : DayFromYear (y + 1) = DayFromYear y + DaysInYear y.
Proof.
  unfold DayFromYear, DaysInYear.
  repeat match goal with
         | |- context [ ?a =? ?b ] => destruct (Z.eqb_spec a b)
         end; cbn [negb];
    Z.div_mod_to_equations; lia.
Qed.

Lemma DayWithinYear_range t :
  0 <= DayWithinYear t < DaysInYear (YearFromTime t).
Proof.
  unfold DayWithinYear. pose proof (YearFromTime_spec t) as H.
  rewrite DayFromYear_step in H. lia.
Qed.

Lemma DaysInYear_cases y : DaysInYear y = 365 \/ DaysInYear y = 366.
Proof.
  unfold DaysInYear.
  destruct (negb (y mod 4 =? 0)); auto.
  destruct (negb (y mod 100 =? 0)); auto.
  destruct (negb (y mod 400 =? 0)); auto.
Qed.

(** The month is one of the twelve and the day of the month one of at
    most 31. *)
Lemma month_and_date_range t :
  0 <= MonthFromTime t <= 11 /\ 1 <= DateFromTime t <= 31.
Proof.
  pose proof (DayWithinYear_range t) as Hr.
  unfold DateFromTime, MonthFromTime, InLeapYear in *.
  destruct (DaysInYear_cases (YearFromTime t)) as [Hy|Hy]; rewrite Hy in *;
    cbn [Z.eqb Pos.eqb];
    repeat match goal with
           | |- context [ ?a <? ?b ] => destruct (Z.ltb_spec a b)
           end; cbn [monthStart]; lia.
Qed.

Lemma year_range t :
  0 <= t < 253402300800000 -> 1970 <= YearFromTime t <= 9999.
Proof.
  intros Ht. pose proof (YearFromTime_spec t) as H.
  assert (Hd : 0 <= Day t < 2932897).
  { unfold Day, msPerDay. split.
    - apply Z.div_pos; lia.
    - apply Z.div_lt_upper_bound; lia. }
  revert H. generalize (YearFromTime t). intros y H.
  unfold DayFromYear in H. Z.div_mod_to_equations. lia.
Qed.

Lemma digit_unreserved n : is_unreserved (digit n) = true.
Proof.
  unfold digit. pose proof (Z.mod_pos_bound n 10 ltac:(lia)) as Hb.
  assert (H : n mod 10 = 0 \/ n mod 10 = 1 \/ n mod 10 = 2 \/ n mod 10 = 3
              \/ n mod 10 = 4 \/ n mod 10 = 5 \/ n mod 10 = 6
              \/ n mod 10 = 7 \/ n mod 10 = 8 \/ n mod 10 = 9) by lia.
  repeat destruct H as [H|H]; rewrite H; reflexivity.
Qed.

Lemma encode_unreserved c s :
  is_unreserved c = true ->
  encodeURIComponent (String c s) = String c (encodeURIComponent s).
Proof.
  intros H. cbn [encodeURIComponent]. unfold encode_unit. rewrite H.
  reflexivity.
Qed.

Lemma encodeURIComponent_append a b :
  encodeURIComponent (a ++ b)
  = (encodeURIComponent a ++ encodeURIComponent b)%string.
Proof.
  induction a as [|c a IH]; cbn [encodeURIComponent append];
    [reflexivity|].
  rewrite IH, append_assoc. reflexivity.
Qed.

Lemma encode_pad2 n s :
  encodeURIComponent (pad2 n ++ s) = (pad2 n ++ encodeURIComponent s)%string.
Proof.
  unfold pad2. cbn [append].
  rewrite !encode_unreserved by apply digit_unreserved. reflexivity.
Qed.

Lemma encode_pad2_alone n : encodeURIComponent (pad2 n) = pad2 n.
Proof.
  unfold pad2. rewrite !encode_unreserved by apply digit_unreserved.
  reflexivity.
Qed.

Lemma encode_pad4 n s :
  encodeURIComponent (pad4 n ++ s) = (pad4 n ++ encodeURIComponent s)%string.
Proof.
  unfold pad4, pad3, pad2. cbn [append].
  rewrite !encode_unreserved by apply digit_unreserved. reflexivity.
Qed.

Lemma isoDate_four_digit_year t :
  0 <= YearFromTime t <= 9999 ->
  isoDate t
  = (pad4 (YearFromTime t) ++ "-" ++ pad2 (MonthFromTime t + 1) ++ "-"
     ++ pad2 (DateFromTime t))%string.
Proof.
  intros [H0 H1]. unfold isoDate, isoYear.
  apply Z.leb_le in H0, H1. rewrite H0, H1. reflexivity.
Qed.

(** X9.  The cutoff is printed as a date of the calendar.  In any time
    zone, when the cutoff instant lies between 1970 and the end of the year
    9999, the text between [created:>] and the next parameter is ten
    characters, four digits of a year from 1970 to 9999, a month from 01 to
    12 and a day from 01 to 31, joined by hyphens. *)
Theorem cutoff_is_a_calendar_date tz t :
  0 <= cutoff tz t < 253402300800000 ->
  exists y m d,
    1970 <= y <= 9999 /\ 1 <= m <= 12 /\ 1 <= d <= 31
    /\ dateString tz t = (pad4 y ++ "-" ++ pad2 m ++ "-" ++ pad2 d)%string
    /\ String.length (dateString tz t) = 10%nat.
Proof.
  intros Hc. rewrite dateString_is_isoDate.
  pose proof (year_range _ Hc) as Hy.
  pose proof (month_and_date_range (cutoff tz t)) as [Hm Hd].
  rewrite isoDate_four_digit_year by lia.
  exists (YearFromTime (cutoff tz t)), (MonthFromTime (cutoff tz t) + 1),
         (DateFromTime (cutoff tz t)).
  repeat split; try lia; reflexivity.
Qed.

Lemma cutoff_is_a_calendar_date_witness :
  exists y m d,
    1970 <= y <= 9999 /\ 1 <= m <= 12 /\ 1 <= d <= 31
    /\ dateString Sample.jerusalem Sample.t0
       = (pad4 y ++ "-" ++ pad2 m ++ "-" ++ pad2 d)%string
    /\ String.length (dateString Sample.jerusalem Sample.t0) = 10%nat.
Proof.
  apply (cutoff_is_a_calendar_date Sample.jerusalem Sample.t0).
  vm_compute. split; [discriminate|reflexivity].
Defined.

(** X10.  The request sent to the search service, letter by letter.  In
    any time zone, when the cutoff instant lies between 1970 and the end of
    the year 9999, the URL is the fixed text up to [created%3A%3E], the ten
    characters of the cutoff date unchanged, and the fixed parameters
    [sort=stars], [order=desc], [per_page=30]. *)
Theorem search_url_text tz t :
  0 <= cutoff tz t < 253402300800000 ->
  searchURL tz t
  = ("https://api.github.com/search/repositories?q=topic%3Aai%20created%3A%3E"
     ++ dateString tz t ++ "&sort=stars&order=desc&per_page=30")%string.
Proof.
  intros Hc. unfold searchURL, query.
  rewrite encodeURIComponent_append.
  change (encodeURIComponent "topic:ai created:>")
    with "topic%3Aai%20created%3A%3E"%string.
  rewrite dateString_is_isoDate.
  pose proof (year_range _ Hc) as Hy.
  rewrite isoDate_four_digit_year by lia.
  rewrite encode_pad4. cbn [append].
  rewrite encode_unreserved by reflexivity.
  rewrite encode_pad2. cbn [append].
  rewrite encode_unreserved by reflexivity.
  rewrite encode_pad2_alone. reflexivity.
Qed.

Lemma search_url_text_witness :
  searchURL Sample.jerusalem Sample.t0
  = ("https://api.github.com/search/repositories?q=topic%3Aai%20created%3A%3E"
     ++ dateString Sample.jerusalem Sample.t0
     ++ "&sort=stars&order=desc&per_page=30")%string.
Proof.
  apply (search_url_text Sample.jerusalem Sample.t0).
  vm_compute. split; [discriminate|reflexivity].
Defined.

(** X11.  On a host whose zone keeps one offset from UTC (UTC itself is
    one), at any time of the day, the cutoff of the query is the calendar
    date of the UTC day seven days before the day of the refresh: the date
    of any instant [u] of that day.  Two refreshes on the same UTC day thus
    send the same query. *)
Theorem cutoff_on_fixed_offset_host offset t u :
  Day u = Day t - 7 ->
  dateString (fixedZone offset) t = isoDate u
  /\ query (fixedZone offset) t = ("topic:ai created:>" ++ isoDate u)%string.
Proof.
  intros H.
  assert (Hd : dateString (fixedZone offset) t = isoDate u).
  { rewrite dateString_is_isoDate, cutoff_fixedZone.
    apply isoDate_of_Day.
    replace (t - 7 * msPerDay) with (t + (-7) * msPerDay) by lia.
    rewrite Day_shift. lia. }
  split; [exact Hd|]. unfold query. rewrite Hd. reflexivity.
Qed.

Lemma cutoff_on_fixed_offset_host_witness :
  dateString (fixedZone 7200000) Sample.t0 = isoDate (Sample.t0 - 600000000).
Proof.
  apply (cutoff_on_fixed_offset_host 7200000 Sample.t0 (Sample.t0 - 600000000)).
  vm_compute. reflexivity.
Defined.

(** * The page *)

(** X12.  The page always shows exactly one of its four views: the
    skeleton while loading, else the error panel when there is an error
    text that is not empty, else the empty state for an empty list, else
    the grid with one card per repository in the order of the list. *)
Theorem exactly_one_view s :
  Home.render s
  = [if Home.loading s then Home.Skeleton
     else if Home.truthy (Home.error s)
          then Home.ErrorPanel
                 match Home.error s with Some m => m | None => ""%string end
     else match Home.repositories s with
          | [] => Home.EmptyState
          | _ => Home.Grid (map (fun repo => (repo, Home.isLoadingCard s repo))
                              (Home.repositories s))
          end].
Proof.
  unfold Home.render.
  destruct (Home.loading s); destruct (Home.truthy (Home.error s));
    destruct (Home.repositories s); reflexivity.
Qed.

Lemma status_of_GET h request w :
  (http_status (response_of h request w) = 500
   /\ data (cache w) = None
   /\ upstream_failed (fetch h (searchURL (zone h) (clock_query h))) = true)
  \/ (http_status (response_of h request w) = 200
      /\ (data (cache w) <> None
          \/ upstream_failed (fetch h (searchURL (zone h) (clock_query h)))
             = false)).
Proof.
  unfold response_of.
  destruct (GET_cases h request w)
    as [(d & Hd & _ & HG)|[(d & t & msg & Hd & _ & _ & HG)
       |[(Hd & Hfail & HG)|(resp & found & _ & Hf & Hok & Hj & HG)]]];
    rewrite HG; cbn.
  - right. split; [reflexivity|]. left. congruence.
  - right. split; [reflexivity|]. left. congruence.
  - left. auto.
  - right. split; [reflexivity|]. right. rewrite Hf. cbn. rewrite Hok, Hj.
    reflexivity.
Qed.

(** X13.  From the route to the screen.  When the page loads or refreshes
    against the route, it ends neither loading nor refreshing.  If the slot
    of the route is empty and the search fails, the page keeps the list it
    had and shows the error panel with the text
    "Failed to fetch repositories: 500".  In every other case it has no
    error and its list is the sequence of the answer, also when that answer
    is stale: the warning does not reach the page. *)
Theorem page_shows_what_the_route_sends isRefresh browserNow h w s :
  let r := response_of h (pageRequest isRefresh browserNow) w in
  let s' := Home.fetchTrendingRepositories isRefresh browserNow
              (fun request => Home.over_http (response_of h request w)) s in
  Home.loading s' = false /\ Home.refreshing s' = false
  /\ (data (cache w) = None ->
      upstream_failed (fetch h (searchURL (zone h) (clock_query h))) = true ->
      Home.repositories s' = Home.repositories s
      /\ Home.render s'
         = [Home.ErrorPanel "Failed to fetch repositories: 500"])
  /\ (data (cache w) <> None
      \/ upstream_failed (fetch h (searchURL (zone h) (clock_query h))) = false ->
      Home.error s' = None
      /\ Home.repositories s' = repositories (body r)).
Proof.
  cbv zeta. unfold Home.fetchTrendingRepositories, Home.settle, Home.over_http.
  cbn [Home.ok Home.status Home.json].
  destruct (status_of_GET h (pageRequest isRefresh browserNow) w)
    as [(Hs & Hd & Hfail)|(Hs & Hor)]; rewrite Hs; cbn [Z.leb Z.compare
      Pos.compare Pos.compare_cont andb negb Home.fail_with Home.loading
      Home.refreshing Home.error Home.repositories Home.begin_fetch].
  - split; [reflexivity|]. split; [reflexivity|]. split.
    + intros _ _. split; reflexivity.
    + intros [Hne|Hup]; [contradiction|congruence].
  - split; [reflexivity|]. split; [reflexivity|]. split.
    + intros Hd Hfail. destruct Hor as [Hne|Hup]; [contradiction|congruence].
    + intros _. split; reflexivity.
Qed.

Lemma page_shows_what_the_route_sends_witness :
  Home.render
    (Home.fetchTrendingRepositories false 0
       (fun request =>
          Home.over_http
            (response_of (Sample.host (fixedZone 0) Sample.t0 Sample.offline)
               request Sample.emptyWorld))
       Home.initialState)
  = [Home.ErrorPanel "Failed to fetch repositories: 500"].
Proof.
  apply (proj1 (proj2 (proj2 (page_shows_what_the_route_sends false 0
           (Sample.host (fixedZone 0) Sample.t0 Sample.offline)
           Sample.emptyWorld Home.initialState)))).
  - reflexivity.
  - reflexivity.
Defined.


(** * The browser storage and the two modals *)

Lemma trimEnd_cons c s :
  Browser.trimEnd (String c s)
  = match Browser.trimEnd s with
    | EmptyString =>
        if Browser.is_space c then EmptyString else String c EmptyString
    | String c' r => String c (String c' r)
    end.
Proof. reflexivity. Qed.

Lemma trimEnd_idempotent s :
  Browser.trimEnd (Browser.trimEnd s) = Browser.trimEnd s.
Proof.
  induction s as [|c s IH]; [reflexivity|].
  rewrite trimEnd_cons.
  destruct (Browser.trimEnd s) as [|c' r] eqn:Hr.
  - destruct (Browser.is_space c) eqn:Hc; [reflexivity|].
    rewrite trimEnd_cons. cbn [Browser.trimEnd]. rewrite Hc. reflexivity.
  - rewrite trimEnd_cons, IH. reflexivity.
Qed.

Lemma trimStart_head s c r :
  Browser.trimStart s = String c r -> Browser.is_space c = false.
Proof.
  induction s as [|x s IH]; cbn [Browser.trimStart]; [discriminate|].
  destruct (Browser.is_space x) eqn:Hx; [exact IH|].
  intros H. injection H as <- _. exact Hx.
Qed.

Lemma trimEnd_head c r :
  Browser.is_space c = false ->
  exists r', Browser.trimEnd (String c r) = String c r'.
Proof.
  intros Hc. cbn [Browser.trimEnd].
  destruct (Browser.trimEnd r); [rewrite Hc|]; eexists; reflexivity.
Qed.

(** [trim] of a trimmed text changes nothing. *)
Lemma trim_idempotent s : Browser.trim (Browser.trim s) = Browser.trim s.
Proof.
  unfold Browser.trim.
  destruct (Browser.trimStart s) as [|c r] eqn:Hs; [reflexivity|].
  pose proof (trimStart_head _ _ _ Hs) as Hc.
  destruct (trimEnd_head c r Hc) as [r' Hr']. rewrite Hr'.
  cbn [Browser.trimStart]. rewrite Hc, <- Hr'. apply trimEnd_idempotent.
Qed.

Lemma getItem_setItem_same st key value :
  Browser.getItem (Browser.setItem st key value) key = Some value.
Proof. unfold Browser.getItem, Browser.setItem. now rewrite String.eqb_refl. Qed.

Lemma getItem_setItem_other st key value k :
  k <> key ->
  Browser.getItem (Browser.setItem st key value) k = Browser.getItem st k.
Proof.
  intros H. unfold Browser.getItem, Browser.setItem.
  apply String.eqb_neq in H. now rewrite H.
Qed.

(** X15.  [AIConfigModal] never stores a key that is blank or has white
    space around it: after [handleSave], whatever the state of the form and
    whether the writes go through or not, the stored key is the one stored
    before or the trimmed text of the form, which is then not empty and is
    its own trimmed form. *)
Theorem stored_key_is_old_or_trimmed accepts m st :
  Browser.getItem (snd (AIConfig.handleSave accepts m st)) "ai_api_key"
  = Browser.getItem st "ai_api_key"
  \/ (Browser.getItem (snd (AIConfig.handleSave accepts m st)) "ai_api_key"
      = Some (Browser.trim (AIConfig.apiKey m))
      /\ Browser.trim (AIConfig.apiKey m) <> ""%string
      /\ Browser.trim (Browser.trim (AIConfig.apiKey m))
         = Browser.trim (AIConfig.apiKey m)).
Proof.
  unfold AIConfig.handleSave.
  destruct (String.eqb (Browser.trim (AIConfig.apiKey m)) "") eqn:Hk;
    [left; reflexivity|].
  destruct (accepts "ai_provider"%string (AIConfig.provider m));
    [|left; reflexivity].
  destruct (accepts "ai_api_key"%string (Browser.trim (AIConfig.apiKey m)));
    cbn [snd].
  - right. split; [apply getItem_setItem_same|].
    split; [apply String.eqb_neq; exact Hk|apply trim_idempotent].
  - left. apply getItem_setItem_other. discriminate.
Qed.

(** X16.  Saving, opening again, summarizing.  When the key of the form
    is not blank, the provider is chosen and both writes go through,
    [handleSave] closes the modal; the modal opened again shows the provider
    and the trimmed key; and [handleSummarize] of the page then sends a
    request with that key and that provider instead of asking for a key. *)
Theorem save_then_open_then_summarize accepts m st m0 repository :
  Browser.trim (AIConfig.apiKey m) <> ""%string ->
  AIConfig.provider m <> ""%string ->
  accepts "ai_provider"%string (AIConfig.provider m) = true ->
  accepts "ai_api_key"%string (Browser.trim (AIConfig.apiKey m)) = true ->
  fst (AIConfig.handleSave accepts m st) = AIConfig.Closed
  /\ AIConfig.apiKey (AIConfig.onOpen (snd (AIConfig.handleSave accepts m st)) m0)
     = Browser.trim (AIConfig.apiKey m)
  /\ AIConfig.provider
       (AIConfig.onOpen (snd (AIConfig.handleSave accepts m st)) m0)
     = AIConfig.provider m
  /\ exists request,
       Summarize.handleSummarize
         (Browser.pageStorage (snd (AIConfig.handleSave accepts m st)))
         repository
       = Summarize.Post request
       /\ Summarize.apiKey request = Some (Browser.trim (AIConfig.apiKey m))
       /\ Summarize.provider request = Some (AIConfig.provider m).
Proof.
  intros Hk Hp Ha1 Ha2. unfold AIConfig.handleSave.
  apply String.eqb_neq in Hk, Hp. rewrite Hk, Ha1, Ha2. cbn [fst snd].
  unfold AIConfig.onOpen, Browser.pageStorage, Summarize.handleSummarize.
  cbn [AIConfig.apiKey AIConfig.provider Summarize.ai_api_key
       Summarize.ai_provider].
  rewrite getItem_setItem_same.
  rewrite getItem_setItem_other by discriminate.
  rewrite getItem_setItem_same.
  unfold Browser.or_else. rewrite Hk, Hp.
  repeat split. eexists. repeat split.
Qed.

Lemma save_then_open_then_summarize_witness :
  fst (AIConfig.handleSave (fun _ _ => true)
         {| AIConfig.provider := "groq"; AIConfig.apiKey := "  gsk_1234 ";
            AIConfig.showKey := false; AIConfig.isSaving := false |}
         Browser.emptyStorage)
  = AIConfig.Closed.
Proof.
  apply (save_then_open_then_summarize (fun _ _ => true)
           {| AIConfig.provider := "groq"; AIConfig.apiKey := "  gsk_1234 ";
              AIConfig.showKey := false; AIConfig.isSaving := false |}
           Browser.emptyStorage AIConfig.initialState Sample.agentKit).
  - vm_compute. discriminate.
  - vm_compute. discriminate.
  - reflexivity.
  - reflexivity.
Defined.

Lemma trimEnd_nonspace c s :
  Browser.is_space c = false ->
  Browser.trimEnd (String c s) = String c (Browser.trimEnd s).
Proof.
  intros Hc. rewrite trimEnd_cons.
  destruct (Browser.trimEnd s); [rewrite Hc|]; reflexivity.
Qed.

Lemma trim_keeps_sk s :
  startsWith s "sk-" = true -> startsWith (Browser.trim s) "sk-" = true.
Proof.
  intros H. apply startsWith_spec in H as [post ->].
  unfold Browser.trim. cbn [append Browser.trimStart].
  change (Browser.is_space "s") with false. cbn iota.
  rewrite !trimEnd_nonspace by reflexivity. apply startsWith_spec.
  eexists. reflexivity.
Qed.

(** X17.  [SettingsModal] checks before it stores: after its
    [handleSave] the stored key is the one stored before, or it is the
    trimmed text of the form, not empty, and starting with [sk-] when the
    provider chosen is "openai". *)
Theorem settings_key_is_checked accepts m st :
  Browser.getItem (Settings.storage (Settings.handleSave accepts m st))
    "ai-news-api-key"
  = Browser.getItem st "ai-news-api-key"
  \/ (Browser.getItem (Settings.storage (Settings.handleSave accepts m st))
        "ai-news-api-key"
      = Some (Browser.trim (Settings.apiKey m))
      /\ Browser.trim (Settings.apiKey m) <> ""%string
      /\ (Settings.provider m = "openai"%string ->
          startsWith (Browser.trim (Settings.apiKey m)) "sk-" = true)).
Proof.
  unfold Settings.handleSave.
  destruct (String.eqb (Browser.trim (Settings.apiKey m)) "") eqn:Hk;
    [left; reflexivity|].
  destruct (String.eqb (Settings.provider m) "openai"
            && negb (startsWith (Settings.apiKey m) "sk-")) eqn:Hp;
    [left; reflexivity|].
  destruct (accepts "ai-news-api-key"%string
              (Browser.trim (Settings.apiKey m))); [|left; reflexivity].
  assert (Hsk : Settings.provider m = "openai"%string ->
                startsWith (Browser.trim (Settings.apiKey m)) "sk-" = true).
  { intros Ho. apply String.eqb_eq in Ho. rewrite Ho in Hp. cbn in Hp.
    apply negb_false_iff in Hp. apply trim_keeps_sk. exact Hp. }
  right.
  destruct (accepts "ai-news-provider"%string (Settings.provider m));
    cbn [Settings.storage].
  - rewrite getItem_setItem_other by discriminate.
    rewrite getItem_setItem_same.
    split; [reflexivity|]. split; [apply String.eqb_neq; exact Hk|exact Hsk].
  - rewrite getItem_setItem_same.
    split; [reflexivity|]. split; [apply String.eqb_neq; exact Hk|exact Hsk].
Qed.

Lemma settings_key_is_checked_witness :
  startsWith (Browser.trim "sk-test-123  ") "sk-" = true.
Proof.
  destruct (settings_key_is_checked (fun _ _ => true)
              {| Settings.apiKey := "sk-test-123  ";
                 Settings.provider := "openai";
                 Settings.notice := None |}
              Browser.emptyStorage) as [H|(_ & _ & H)].
  - vm_compute in H. discriminate H.
  - apply H. reflexivity.
Defined.

(** X18.  What [SettingsModal] saves is not what the page reads: its
    [handleSave] writes under the keys [ai-news-api-key] and
    [ai-news-provider] only, so the two items [handleSummarize] reads, and
    with them what [handleSummarize] does, are the same before and after. *)
Theorem settings_do_not_reach_the_page accepts m st repository :
  Browser.pageStorage (Settings.storage (Settings.handleSave accepts m st))
  = Browser.pageStorage st
  /\ Summarize.handleSummarize
       (Browser.pageStorage (Settings.storage (Settings.handleSave accepts m st)))
       repository
     = Summarize.handleSummarize (Browser.pageStorage st) repository.
Proof.
  assert (H : Browser.pageStorage
                (Settings.storage (Settings.handleSave accepts m st))
              = Browser.pageStorage st).
  { unfold Settings.handleSave, Browser.pageStorage.
    destruct (String.eqb (Browser.trim (Settings.apiKey m)) "");
      [reflexivity|].
    destruct (String.eqb (Settings.provider m) "openai"
              && negb (startsWith (Settings.apiKey m) "sk-"));
      [reflexivity|].
    destruct (accepts "ai-news-api-key"%string
                (Browser.trim (Settings.apiKey m))); [|reflexivity].
    destruct (accepts "ai-news-provider"%string (Settings.provider m));
      cbn [Settings.storage];
      rewrite !getItem_setItem_other by discriminate; reflexivity. }
  split; [exact H|]. rewrite H. reflexivity.
Qed.

(** X19.  [loadSettings] takes a provider from the storage only when it
    is "openai" or "groq": a state whose provider is one of the two keeps a
    provider that is one of the two, whatever the storage holds. *)
Theorem loadSettings_keeps_provider_supported st m :
  Settings.provider m = "openai"%string \/ Settings.provider m = "groq"%string ->
  Settings.provider (Settings.loadSettings st m) = "openai"%string
  \/ Settings.provider (Settings.loadSettings st m) = "groq"%string.
Proof.
  intros H. unfold Settings.loadSettings. cbn [Settings.provider].
  destruct (Browser.getItem st "ai-news-provider") as [p|]; [|exact H].
  cbn [existsb].
  destruct (String.eqb_spec p "openai") as [->|_]; [left; reflexivity|].
  destruct (String.eqb_spec p "groq") as [->|_]; [right; reflexivity|].
  exact H.
Qed.

Lemma loadSettings_keeps_provider_supported_witness :
  Settings.provider
    (Settings.loadSettings
       (Browser.setItem Browser.emptyStorage "ai-news-provider" "anthropic")
       Settings.initialState) = "openai"%string
  \/ Settings.provider
    (Settings.loadSettings
       (Browser.setItem Browser.emptyStorage "ai-news-provider" "anthropic")
       Settings.initialState) = "groq"%string.
Proof.
  apply (loadSettings_keeps_provider_supported
           (Browser.setItem Browser.emptyStorage "ai-news-provider" "anthropic")
           Settings.initialState).
  left. reflexivity.
Defined.

(** * The card *)

Lemma topics_of_tags l more :
  (forall t, In t more -> match t with NewsCard.Topic _ => False | _ => True end) ->
  flat_map (fun t => match t with NewsCard.Topic x => [x] | _ => [] end)
    (map NewsCard.Topic l ++ more) = l.
Proof.
  intros Hm. induction l as [|x l IH]; cbn.
  - induction more as [|t more IHm]; [reflexivity|].
    cbn. pose proof (Hm t (or_introl eq_refl)) as Ht.
    destruct t; try contradiction; cbn; apply IHm; intros u Hu;
      apply Hm; right; exact Hu.
  - f_equal. exact IH.
Qed.

Lemma topicsShown_spec repo :
  NewsCard.topicsShown repo
  = firstn 3 (NewsCard.extraTopics (Filter.topics_or_empty repo)).
Proof.
  unfold NewsCard.topicsShown, NewsCard.tags, Filter.topics_or_empty.
  cbn [app flat_map].
  destruct (GitHub.topics repo) as [ts|]; [|reflexivity].
  destruct ts as [|t ts]; [reflexivity|].
  change (0 <? List.length (t :: ts))%nat with true. cbn iota.
  apply topics_of_tags. intros u Hu.
  destruct (3 <? List.length (NewsCard.extraTopics (t :: ts)))%nat;
    [|contradiction].
  destruct Hu as [<-|[]]. exact I.
Qed.

Lemma countShown_spec repo :
  NewsCard.countShown repo
  = Z.max 0 (Z.of_nat (List.length
                         (NewsCard.extraTopics (Filter.topics_or_empty repo)))
             - 3).
Proof.
  unfold NewsCard.countShown, NewsCard.tags, Filter.topics_or_empty.
  cbn [app fold_right].
  destruct (GitHub.topics repo) as [ts|]; [|reflexivity].
  destruct ts as [|t ts]; [reflexivity|].
  change (0 <? List.length (t :: ts))%nat with true. cbn iota.
  set (extra := NewsCard.extraTopics (t :: ts)).
  assert (Hfold : forall l tl,
    fold_right (fun t acc => match t with NewsCard.More n _ => n | _ => acc end)
      0 (map NewsCard.Topic l ++ tl)
    = fold_right (fun t acc => match t with NewsCard.More n _ => n | _ => acc end)
        0 tl).
  { induction l as [|x l IH]; intros tl; cbn; [reflexivity|apply IH]. }
  rewrite Hfold.
  destruct (Nat.ltb_spec 3 (List.length extra)); cbn [fold_right]; lia.
Qed.

(** X20.  The topics on a card.  Besides the two fixed tags the card
    shows the first three topics of the repository that are not "ai" or
    "machine-learning" in any letter case, in their order; none of the
    topics shown is one of those two; and the number on the item that counts
    the rest, or 0 when there is no such item, plus the number of topics
    shown is the number of such topics, so none is lost from the count. *)
Theorem card_topics repo :
  NewsCard.topicsShown repo
  = firstn 3 (NewsCard.extraTopics (Filter.topics_or_empty repo))
  /\ (List.length (NewsCard.topicsShown repo) <= 3)%nat
  /\ Forall (fun topic => NewsCard.isCoreTopic topic = false)
       (NewsCard.topicsShown repo)
  /\ Z.of_nat (List.length (NewsCard.topicsShown repo))
     + NewsCard.countShown repo
     = Z.of_nat (List.length
                   (NewsCard.extraTopics (Filter.topics_or_empty repo)))
  /\ (List.length (NewsCard.tags repo) <= 6)%nat.
Proof.
  rewrite countShown_spec, topicsShown_spec.
  set (extra := NewsCard.extraTopics (Filter.topics_or_empty repo)).
  split; [reflexivity|]. split; [apply firstn_le_length|]. split.
  - apply Forall_forall. intros x Hx.
    assert (Hin : In x extra).
    { rewrite <- (firstn_skipn 3 extra). apply in_or_app. left. exact Hx. }
    apply filter_In in Hin as [_ Hn]. apply negb_true_iff in Hn. exact Hn.
  - split.
    + rewrite length_firstn. lia.
    + unfold NewsCard.tags. cbn [app List.length].
      destruct (GitHub.topics repo) as [ts|]; [|cbn; lia].
      destruct (0 <? List.length ts)%nat; [|cbn; lia].
      rewrite length_app, length_map, length_firstn.
      destruct (3 <? _)%nat; cbn [List.length]; lia.
Qed.





(** X23.  The star label is the count rounded to the tenth of a
    thousand.  For a count from 1000 up (below 2^53) the label is a number
    of tenths [n] written with a point before its last digit and followed by
    "k"; [n] hundreds are within 50 of the count; and unless the count lies
    exactly halfway (it ends in 50) [n] is the count rounded to the nearest
    hundred.  Halfway the binary value of [count / 1000] decides. *)
Theorem star_label_is_the_count_rounded count :
  1000 <= count < 2 ^ 53 ->
  exists n,
    NewsCard.formatStarCount count
    = (number_to_string (n / 10) ++ "." ++ number_to_string (n mod 10)
       ++ "k")%string
    /\ Z.abs (100 * n - count) <= 50
    /\ (count mod 100 <> 50 -> n = (count + 50) / 100).
Proof.
  intros [Hlo Hhi]. unfold NewsCard.formatStarCount.
  apply Z.leb_le in Hlo as Hlo'. rewrite Hlo'.
  unfold NewsCard.nearest_double, NewsCard.toFixed1.
  set (k := 52 - Z.log2 (count / 1000)).
  assert (Hq : 1 <= count / 1000 < 2 ^ 44).
  { split.
    - apply Z.div_le_lower_bound; lia.
    - apply Z.div_lt_upper_bound; [lia|].
      change (2 ^ 53) with 9007199254740992 in Hhi.
      change (2 ^ 44) with 17592186044416. lia. }
  assert (Hk : 9 <= k <= 52).
  { unfold k. pose proof (Z.log2_nonneg (count / 1000)).
    assert (Z.log2 (count / 1000) < 44)
      by (apply Z.log2_lt_pow2; lia).
    lia. }
  assert (HK : 512 <= 2 ^ k).
  { change 512 with (2 ^ 9). apply Z.pow_le_mono_r; lia. }
  replace (2 ^ (k + 1)) with (2 * 2 ^ k)
    by (change (k + 1) with (Z.succ k); rewrite Z.pow_succ_r; lia).
  set (K := 2 ^ k) in *.
  pose proof (Z.div_mod (count * K) 1000 ltac:(lia)) as Hdm.
  pose proof (Z.mod_pos_bound (count * K) 1000 ltac:(lia)) as Hr.
  set (f := count * K / 1000) in *. set (r := (count * K) mod 1000) in *.
  set (m := if 2 * r <? 1000 then f
            else if 1000 <? 2 * r then f + 1
            else if Z.even f then f else f + 1).
  assert (Hm : -500 <= 1000 * m - count * K <= 500).
  { unfold m. destruct (Z.ltb_spec (2 * r) 1000); [lia|].
    destruct (Z.ltb_spec 1000 (2 * r)); [lia|].
    destruct (Z.even f); lia. }
  pose proof (Z.div_mod (20 * m + K) (2 * K) ltac:(lia)) as Hn.
  pose proof (Z.mod_pos_bound (20 * m + K) (2 * K) ltac:(lia)) as Hrem.
  set (n := (20 * m + K) / (2 * K)) in *.
  set (rem := (20 * m + K) mod (2 * K)) in *.
  exists n. split; [now rewrite !append_assoc|].
  assert (Hup : 100 * n - count - 50 <= 0).
  { destruct (Z.le_gt_cases (100 * n - count - 50) 0) as [H|H]; [exact H|].
    exfalso. assert (K * 1 <= K * (100 * n - count - 50))
      by (apply Z.mul_le_mono_nonneg_l; lia). nia. }
  assert (Hdown : count - 50 - 100 * n <= 0).
  { destruct (Z.le_gt_cases (count - 50 - 100 * n) 0) as [H|H]; [exact H|].
    exfalso. assert (K * 1 <= K * (count - 50 - 100 * n))
      by (apply Z.mul_le_mono_nonneg_l; lia). nia. }
  split; [lia|].
  intros Htie. Z.div_mod_to_equations. lia.
Qed.

Lemma star_label_is_the_count_rounded_witness :
  exists n,
    NewsCard.formatStarCount 15420
    = (number_to_string (n / 10) ++ "." ++ number_to_string (n mod 10)
       ++ "k")%string
    /\ Z.abs (100 * n - 15420) <= 50
    /\ (15420 mod 100 <> 50 -> n = (15420 + 50) / 100).
Proof.
  apply (star_label_is_the_count_rounded 15420).
  vm_compute. split; [discriminate|reflexivity].
Defined.

(** * More on the route and the page *)

(** X24.  The age an answer from the fresh cache reports never exceeds
    300 seconds, and is not negative when the clock is not behind the time
    of the fetch.  It can be 300: an age of 299.5 seconds or more is
    rounded up. *)
Theorem fresh_answer_age_bounds h request w :
  refresh_due h request w = false ->
  exists age,
    cache_age_seconds (body (response_of h request w)) = Some age
    /\ age <= 300
    /\ (lastFetch (cache w) <= clock_entry h -> 0 <= age)
    /\ (299500 <= clock_entry h - lastFetch (cache w) -> age = 300).
Proof.
  intros Hdue.
  destruct (refresh_due_false h request w Hdue) as (d & Hd & Hf & Hage).
  unfold response_of. rewrite (GET_fresh h request w d Hd Hf Hage). cbn.
  eexists. split; [reflexivity|].
  unfold round_seconds, CACHE_DURATION in *.
  repeat split; intros; Z.div_mod_to_equations; lia.
Qed.

Lemma fresh_answer_age_bounds_witness :
  exists age,
    cache_age_seconds (body (response_of
       (Sample.host (fixedZone 0) (Sample.t0 + 299600) Sample.offline)
       Sample.plain Sample.populatedWorld)) = Some age
    /\ age <= 300
    /\ (lastFetch (cache Sample.populatedWorld) <= Sample.t0 + 299600 ->
        0 <= age)
    /\ (299500 <= Sample.t0 + 299600 - lastFetch (cache Sample.populatedWorld) ->
        age = 300).
Proof.
  apply (fresh_answer_age_bounds
           (Sample.host (fixedZone 0) (Sample.t0 + 299600) Sample.offline)
           Sample.plain Sample.populatedWorld).
  vm_compute. reflexivity.
Defined.

(** X25.  A load of the page, against any network, ends with the page
    neither loading nor refreshing; and it ends either with an error text
    and the list it had before, or with the error cleared and the list of
    the answer (the empty list when the answer has none). *)
Theorem page_load_outcome isRefresh browserNow network s :
  let s' := Home.fetchTrendingRepositories isRefresh browserNow network s in
  Home.loading s' = false /\ Home.refreshing s' = false
  /\ ((exists m, Home.error s' = Some m)
      /\ Home.repositories s' = Home.repositories s
      \/ Home.error s' = None
         /\ exists r d,
              network (pageRequest isRefresh browserNow) = Home.Answered r
              /\ Home.ok r = true /\ Home.json r = inr d
              /\ Home.repositories s'
                 = match d with Some l => l | None => [] end).
Proof.
  cbv zeta. unfold Home.fetchTrendingRepositories, Home.settle.
  destruct (network (pageRequest isRefresh browserNow)) as [e|r].
  - cbn. split; [reflexivity|]. split; [reflexivity|]. left.
    split; [eexists; reflexivity|reflexivity].
  - destruct (Home.ok r) eqn:Hok; cbn [negb].
    + destruct (Home.json r) as [e|d] eqn:Hj.
      * cbn. split; [reflexivity|]. split; [reflexivity|]. left.
        split; [eexists; reflexivity|reflexivity].
      * cbn. split; [reflexivity|]. split; [reflexivity|]. right.
        split; [reflexivity|]. exists r, d. auto.
    + cbn. split; [reflexivity|]. split; [reflexivity|]. left.
      split; [eexists; reflexivity|reflexivity].
Qed.
